(** * craftnest-backend: the listings service of [src/index.js]

    A shallow embedding of the Express handlers of [src/index.js] and of
    its earlier variant [src/unnamed/part_000], followed by the
    properties of the listing store that the specification states.

    Layout:
    - [Js]      : the JavaScript values the handlers touch (numbers are
                  IEEE binary64, taken from the standard library's
                  [SpecFloat]), truthiness, [Number(...)], and what
                  [JSON.stringify] keeps of a value;
    - [Clock]   : [Date.now().toString()] and [toISOString()];
    - [Store]   : the listing record, the backing file, the world the
                  handlers run in and the state-and-exception monad;
    - [Server]  : [readListings], [writeListings] and the six routes;
    - [Spec]    : the predicates the specification speaks of;
    - [NumberFacts], [Run] : lemmas on doubles and on the handlers;
    - the claims.

    What the model takes from outside the two source files:
    - a string is a sequence of 8-bit code units;
    - the file is identified with the value [JSON.parse] reads from it
      (or with the fact that it has none), and a parsed document is an
      array of listing records;
    - [fs.writeFile] either replaces the file, or is refused when it
      opens the file and leaves it; a write cut short after the open,
      which leaves a truncated document, is not modelled;
    - the system clock never runs backwards;
    - of the mail relay, only whether it accepts a message;
    - the handlers are run one at a time, from the request as the
      body parsers leave it ([req.body] is [undefined] when none of
      them read it): what Express answers to a body it cannot parse or
      to a path without a route is not part of it;
    - a throw that no [try] of a handler encloses rejects the promise
      of the handler, and Express 5 answers it with its own error
      page. *)

From Stdlib Require Import ZArith String Ascii List DecimalString.
From Stdlib Require Import Floats.SpecFloat.
From Stdlib Require DecimalPos DecimalZ.
From stdpp Require Import base option list strings.
Import ListNotations.

Local Open Scope string_scope.
Local Open Scope list_scope.
Local Open Scope Z_scope.

(* ================================================================== *)
(** * JavaScript values *)
(* ================================================================== *)

Module Js.

(** ** Numbers: binary64 *)

Definition prec : Z := 53.
Definition emax : Z := 1024.

(** A JavaScript number is an IEEE 754 double. *)
Definition number : Type := spec_float.

(** The double nearest to an integer (exact up to [2^53]). *)
Definition of_Z (z : Z) : number := binary_normalize prec emax z 0 false.

Definition js_add (x y : number) : number := SFadd prec emax x y.
Definition js_leb (x y : number) : bool := SFleb x y.

Definition is_finite (x : number) : bool :=
  match x with
  | S754_zero _ | S754_finite _ _ _ => true
  | S754_infinity _ | S754_nan => false
  end.

(** The integer a double denotes, when it denotes one. *)
Definition to_Z (x : number) : option Z :=
  match x with
  | S754_zero _ => Some 0
  | S754_finite s m e =>
      if 0 <=? e then Some (cond_Zopp s (Zpos m * 2 ^ e))
      else if Zpos m mod 2 ^ (- e) =? 0
           then Some (cond_Zopp s (Zpos m / 2 ^ (- e)))
           else None
  | S754_infinity _ | S754_nan => None
  end.

(** [p] followed by [k] zero bits, and the number of zero bits that
    pad [p] to the 53 digits of a normal mantissa: the mantissa of
    [of_Z (Zpos p)] is [shl (pad p) p]. *)
Fixpoint shl (k : nat) (p : positive) : positive :=
  match k with
  | O => p
  | S k' => xO (shl k' p)
  end.

Definition pad (p : positive) : nat := Z.to_nat (53 - Zpos (digits2_pos p)).

(** The double nearest to [(-1)^neg * m * 10^e], for [0 <= m]: the
    value of a decimal literal.  A negative exponent divides; the
    quotient is taken with at least 64 significant bits and a sticky
    last bit, so that the final rounding to 53 bits is the correct
    one. *)
Definition of_decimal (neg : bool) (m e : Z) : number :=
  if m =? 0 then S754_zero neg
  else if 0 <=? e then
    binary_normalize prec emax (cond_Zopp neg (m * 10 ^ e)) 0 false
  else
    let d := 10 ^ (- e) in
    let s := Z.max 0 (Z.log2 d - Z.log2 m + 64) in
    let q := (m * 2 ^ s) / d in
    let r := (m * 2 ^ s) mod d in
    let q' := if r =? 0 then q else Z.lor q 1 in
    binary_normalize prec emax (cond_Zopp neg q') (- s) false.

(** ** Values

    What [express.json()] / [express.urlencoded()] put in [req.body],
    what the handlers build, and what [res.json] receives.  An object
    is its list of own properties in insertion order. *)
#[warnings="-register-all"]
Inductive value : Type :=
  | JUndefined
  | JNull
  | JBool (b : bool)
  | JNum (x : number)
  | JStr (s : string)
  | JArr (vs : list value)
  | JObj (fields : list (string * value)).

(** [lookup k fields]: the own property [k] of an object literal. *)
Fixpoint lookup (k : string) (fields : list (string * value)) : value :=
  match fields with
  | [] => JUndefined
  | (k', v) :: rest => if String.eqb k k' then v else lookup k rest
  end.

(** [const { ... } = v] and [v.k] throw a [TypeError] when [v] is
    [undefined] or [null]; every other value can be read from.
    [req.body] is [undefined] when no parser has read the request. *)
Definition coercible (v : value) : bool :=
  match v with
  | JUndefined | JNull => false
  | _ => true
  end.

(** [v.k] on a value that can be read from, for the property names the
    handlers read ([title], [price], [success], ...): none of them is
    defined on the prototypes of arrays, strings, numbers or booleans.
    On [undefined] and [null] the read throws: the handlers test
    [coercible] where the source destructures. *)
Definition get_prop (v : value) (k : string) : value :=
  match v with
  | JObj fields => lookup k fields
  | _ => JUndefined
  end.

(** [!!v]: the falsy values are [undefined], [null], [false], [0],
    [-0], [NaN] and the empty string. *)
Definition ToBoolean (v : value) : bool :=
  match v with
  | JUndefined | JNull => false
  | JBool b => b
  | JNum (S754_zero _) | JNum S754_nan => false
  | JNum _ => true
  | JStr s => negb (String.eqb s "")
  | JArr _ | JObj _ => true
  end.

(** ** [Number(string)]: the StringNumericLiteral grammar *)

Definition is_white_space (c : ascii) : bool :=
  let n := nat_of_ascii c in
  ((9 <=? n) && (n <=? 13) || (n =? 32) || (n =? 160))%nat.

Fixpoint trim_start (cs : list ascii) : list ascii :=
  match cs with
  | c :: rest => if is_white_space c then trim_start rest else cs
  | [] => []
  end.

Definition trim (cs : list ascii) : list ascii :=
  rev (trim_start (rev (trim_start cs))).

Definition digit_of (radix : Z) (c : ascii) : option Z :=
  let n := Z.of_nat (nat_of_ascii c) in
  let d :=
    if (48 <=? n) && (n <=? 57) then n - 48
    else if (97 <=? n) && (n <=? 102) then n - 87
    else if (65 <=? n) && (n <=? 70) then n - 55
    else radix in
  if d <? radix then Some d else None.

(** The longest prefix of digits, most significant first, and the rest. *)
Fixpoint span_digits (radix : Z) (cs : list ascii) : list Z * list ascii :=
  match cs with
  | c :: rest =>
      match digit_of radix c with
      | Some d => let '(ds, tl) := span_digits radix rest in (d :: ds, tl)
      | None => ([], cs)
      end
  | [] => ([], [])
  end.

Definition digits_value (radix : Z) (ds : list Z) : Z :=
  fold_left (fun acc d => acc * radix + d) ds 0.

(** [0x..], [0o..], [0b..]: at least one digit, nothing after. *)
Definition non_decimal_literal (cs : list ascii) : option number :=
  let with_radix radix rest :=
    match span_digits radix rest with
    | (d :: ds, []) => Some (of_Z (digits_value radix (d :: ds)))
    | _ => None
    end in
  match cs with
  | "0"%char :: p :: rest =>
      if Ascii.eqb p "x" || Ascii.eqb p "X" then with_radix 16 rest
      else if Ascii.eqb p "o" || Ascii.eqb p "O" then with_radix 8 rest
      else if Ascii.eqb p "b" || Ascii.eqb p "B" then with_radix 2 rest
      else None
  | _ => None
  end.

Definition split_sign (cs : list ascii) : bool * list ascii :=
  match cs with
  | "+"%char :: rest => (false, rest)
  | "-"%char :: rest => (true, rest)
  | _ => (false, cs)
  end.

(** Digits, an optional fraction, an optional exponent; at least one
    digit before the exponent; nothing after. *)
Definition unsigned_decimal_literal (neg : bool) (cs : list ascii) : option number :=
  let '(ip, r1) := span_digits 10 cs in
  let '(fp, r2) :=
    match r1 with
    | "."%char :: r => span_digits 10 r
    | _ => ([], r1)
    end in
  match ip ++ fp with
  | [] => None
  | ds =>
      let m := digits_value 10 ds in
      let scale := - Z.of_nat (length fp) in
      match r2 with
      | [] => Some (of_decimal neg m scale)
      | e :: r3 =>
          if Ascii.eqb e "e" || Ascii.eqb e "E" then
            let '(eneg, r4) := split_sign r3 in
            match span_digits 10 r4 with
            | (d :: es, []) =>
                Some (of_decimal neg m
                        (cond_Zopp eneg (digits_value 10 (d :: es)) + scale))
            | _ => None
            end
          else None
      end
  end.

Definition decimal_literal (cs : list ascii) : option number :=
  let '(neg, body) := split_sign cs in
  if String.eqb (string_of_list_ascii body) "Infinity"
  then Some (S754_infinity neg)
  else unsigned_decimal_literal neg body.

(** [Number(s)] for a string: white space is trimmed, the empty string
    is [0], a string that is not a numeric literal is [NaN]. *)
Definition StringToNumber (s : string) : number :=
  match trim (list_ascii_of_string s) with
  | [] => S754_zero false
  | cs =>
      match non_decimal_literal cs with
      | Some x => x
      | None => default S754_nan (decimal_literal cs)
      end
  end.

(** [Number(v)] on an object first converts it to a primitive, with
    the inherited [valueOf] (which returns the object itself) and then
    [toString].  Every property of a parsed body is data, so an own
    property named [toString] hides the inherited method behind a
    value that cannot be called, and the conversion throws a
    [TypeError].  An array prints its elements joined by commas, and
    throws when one of them does. *)
Definition has_own (k : string) (fields : list (string * value)) : bool :=
  existsb (fun kv => String.eqb (fst kv) k) fields.

Fixpoint unprintable (v : value) : bool :=
  match v with
  | JObj fields => has_own "toString" fields
  | JArr vs => existsb unprintable vs
  | _ => false
  end.

(** The number a value converts to, when the conversion does not
    throw.  A plain object prints as ["[object Object]"], which is no
    numeric literal; an array of two or more elements prints with a
    comma and is none either; the empty array prints as the empty
    string; a one-element array prints as its element does ([null]
    and [undefined] as the empty string, a number as a literal that
    reads back as itself, with [-0] printed as ["0"]). *)
Fixpoint number_value (v : value) : number :=
  match v with
  | JUndefined => S754_nan
  | JNull => S754_zero false
  | JBool b => if b then of_Z 1 else S754_zero false
  | JNum x => x
  | JStr s => StringToNumber s
  | JObj _ => S754_nan
  | JArr [] => S754_zero false
  | JArr [e] =>
      match e with
      | JUndefined | JNull => S754_zero false
      | JBool _ | JObj _ => S754_nan
      | JNum (S754_zero _) => S754_zero false
      | JNum x => x
      | JStr s => StringToNumber s
      | JArr _ => number_value e
      end
  | JArr _ => S754_nan
  end.

(** [Number(v)]: [None] when it throws. *)
Definition ToNumber (v : value) : option number :=
  if unprintable v then None else Some (number_value v).

(** ** What [JSON.stringify] keeps

    The file and the response bodies hold JSON text; a document is
    identified with the value [JSON.parse] reads back from it.
    Serialising writes [NaN] and the infinities as [null], [-0] as
    [0], an [undefined] array element as [null], and leaves out an
    object property whose value is [undefined]. *)
Definition json_number (x : number) : value :=
  match x with
  | S754_zero _ => JNum (S754_zero false)
  | S754_finite _ _ _ => JNum x
  | S754_infinity _ | S754_nan => JNull
  end.

(** An array element that does not serialise is written as [null]. *)
Definition element (v : value) : value :=
  match v with
  | JUndefined => JNull
  | _ => v
  end.

(** A property that does not serialise is left out. *)
Definition property (k : string) (v : value) : list (string * value) :=
  match v with
  | JUndefined => []
  | _ => [(k, v)]
  end.

Fixpoint to_json (v : value) : value :=
  match v with
  | JUndefined => JUndefined
  | JNull => JNull
  | JBool b => JBool b
  | JNum x => json_number x
  | JStr s => JStr s
  | JArr vs => JArr (map (fun e => element (to_json e)) vs)
  | JObj fields =>
      JObj (flat_map (fun kv => property (fst kv) (to_json (snd kv))) fields)
  end.

End Js.

(* ================================================================== *)
(** * The clock: [Date.now().toString()] and [toISOString()] *)
(* ================================================================== *)

Module Clock.

(** [Date.now().toString()]: a time value is an integer of at most 16
    digits, which prints in plain decimal notation. *)
Definition toString (t : Z) : string := NilZero.string_of_int (Z.to_int t).

Definition digit_char (d : Z) : ascii := ascii_of_nat (48 + Z.to_nat d).

(** The [w] low decimal digits of [n], zero padded. *)
Fixpoint fixed (w : nat) (n : Z) : string :=
  match w with
  | O => ""
  | S w' => fixed w' (n / 10) +:+ String (digit_char (n mod 10)) ""
  end.

(** Year, month and day of the proleptic Gregorian calendar from the
    number of days since 1970-01-01. *)
Definition civil_from_days (days : Z) : Z * Z * Z :=
  let z := days + 719468 in
  let era := z / 146097 in
  let doe := z - era * 146097 in
  let yoe := (doe - doe / 1460 + doe / 36524 - doe / 146096) / 365 in
  let doy := doe - (365 * yoe + yoe / 4 - yoe / 100) in
  let mp := (5 * doy + 2) / 153 in
  let d := doy - (153 * mp + 2) / 5 + 1 in
  let m := if mp <? 10 then mp + 3 else mp - 9 in
  let y := yoe + era * 400 + (if m <=? 2 then 1 else 0) in
  (y, m, d).

Definition ms_per_day : Z := 86400000.

(** [new Date(t).toISOString()]: [YYYY-MM-DDTHH:mm:ss.sssZ], the year
    written with a sign and six digits outside [0, 9999]. *)
Definition toISOString (t : Z) : string :=
  let '(y, m, d) := civil_from_days (t / ms_per_day) in
  let ms := t mod ms_per_day in
  let year :=
    if (0 <=? y) && (y <=? 9999) then fixed 4 y
    else (if y <? 0 then "-" else "+") +:+ fixed 6 (Z.abs y) in
  year +:+ "-" +:+ fixed 2 m +:+ "-" +:+ fixed 2 d +:+ "T"
       +:+ fixed 2 (ms / 3600000) +:+ ":" +:+ fixed 2 (ms / 60000 mod 60) +:+ ":"
       +:+ fixed 2 (ms / 1000 mod 60) +:+ "." +:+ fixed 3 (ms mod 1000) +:+ "Z".

End Clock.

(* ================================================================== *)
(** * The listing store *)
(* ================================================================== *)

Module Store.
Import Js.

(** A numeric property as the service holds it: a number, or [null]
    once a [NaN] or an infinity has gone through [JSON.stringify]. *)
Inductive jnum : Type :=
  | Null
  | Num (x : number).

Definition jnum_value (n : jnum) : value :=
  match n with
  | Null => JNull
  | Num x => JNum x
  end.

(** One record of the collection: the object literal that
    [POST /listings] builds.  [title], [description], [contact] and
    [imageUrl] are copied from the request unchecked, so they hold
    whatever value the client sent. *)
Record Listing : Type := mkListing {
  id : string;
  title : value;
  price : jnum;
  description : value;
  contact : value;
  imageUrl : value;
  likes : jnum;
  sold : bool;
  createdAt : string
}.

Definition set_likes (n : jnum) (l : Listing) : Listing :=
  mkListing (id l) (title l) (price l) (description l) (contact l)
            (imageUrl l) n (sold l) (createdAt l).

Definition set_sold (b : bool) (l : Listing) : Listing :=
  mkListing (id l) (title l) (price l) (description l) (contact l)
            (imageUrl l) (likes l) b (createdAt l).

(** The record as a JavaScript object, properties in literal order. *)
Definition encode (l : Listing) : value :=
  JObj [ ("id", JStr (id l));
         ("title", title l);
         ("price", jnum_value (price l));
         ("description", description l);
         ("contact", contact l);
         ("imageUrl", imageUrl l);
         ("likes", jnum_value (likes l));
         ("sold", JBool (sold l));
         ("createdAt", JStr (createdAt l)) ].

Definition json_jnum (n : jnum) : jnum :=
  match n with
  | Null => Null
  | Num (S754_zero _) => Num (S754_zero false)
  | Num (S754_finite s m e) => Num (S754_finite s m e)
  | Num (S754_infinity _) | Num S754_nan => Null
  end.

(** The record [JSON.parse] reads back after [JSON.stringify] wrote
    [l]. *)
Definition persist (l : Listing) : Listing :=
  mkListing (id l) (to_json (title l)) (json_jnum (price l))
            (to_json (description l)) (to_json (contact l))
            (to_json (imageUrl l)) (json_jnum (likes l)) (sold l)
            (createdAt l).

(** [x += 1] on a numeric property: [null + 1] is [1]. *)
Definition plus_one (n : jnum) : jnum :=
  match n with
  | Null => Num (js_add (S754_zero false) (of_Z 1))
  | Num x => Num (js_add x (of_Z 1))
  end.

(** ** The backing file and the world around the handlers *)

(** What [listings.json] holds when it exists: text that [JSON.parse]
    rejects, or the array of records it parses to. *)
Inductive content : Type :=
  | Garbage
  | Json (listings : list Listing).

(** The state the handlers read and change: the file ([None] when it
    does not exist), whether [fs.writeFile] succeeds, the system clock
    in milliseconds with the advances it makes before each of the next
    readings, whether the mail relay accepts a message, the number of
    messages handed to it, and the lines the code of the service sends
    to [console.error]. *)
Record world : Type := mkWorld {
  file : option content;
  disk_ok : bool;
  clock : Z;
  ticks : list nat;
  relay_ok : bool;
  outbox : nat;
  console : list string
}.

Definition set_file (f : option content) (w : world) : world :=
  mkWorld f (disk_ok w) (clock w) (ticks w) (relay_ok w) (outbox w) (console w).

Definition set_clock (t : Z) (rest : list nat) (w : world) : world :=
  mkWorld (file w) (disk_ok w) t rest (relay_ok w) (outbox w) (console w).

Definition set_outbox (n : nat) (w : world) : world :=
  mkWorld (file w) (disk_ok w) (clock w) (ticks w) (relay_ok w) n (console w).

Definition set_console (c : list string) (w : world) : world :=
  mkWorld (file w) (disk_ok w) (clock w) (ticks w) (relay_ok w) (outbox w) c.

(** The collection a world holds. *)
Definition listings_of (w : world) : list Listing :=
  match file w with
  | Some (Json xs) => xs
  | _ => []
  end.

(** ** Computations that read and change the world, or throw *)

Inductive error : Type :=
  | ENOENT        (* fs.readFile: no such file *)
  | SyntaxError   (* JSON.parse *)
  | WriteError    (* fs.writeFile *)
  | TypeError     (* destructuring undefined; an object that has no primitive *)
  | RelayError.   (* resend.emails.send *)

Definition M (A : Type) : Type := world -> (error + A) * world.

Definition ret {A} (a : A) : M A := fun w => (inr a, w).

Definition throw {A} (e : error) : M A := fun w => (inl e, w).

Definition bind {A B} (m : M A) (k : A -> M B) : M B :=
  fun w =>
    match m w with
    | (inr a, w') => k a w'
    | (inl e, w') => (inl e, w')
    end.

(** [try { m } catch (e) { h e }] *)
Definition try_catch {A} (m : M A) (h : error -> M A) : M A :=
  fun w =>
    match m w with
    | (inr a, w') => (inr a, w')
    | (inl e, w') => h e w'
    end.

Declare Scope js_scope.
Delimit Scope js_scope with js.
Notation "x <- m ;; k" := (bind m (fun x => k))
  (at level 100, m at next level, right associativity) : js_scope.
Notation "m ;;; k" := (bind m (fun _ => k))
  (at level 100, right associativity) : js_scope.

Definition console_error (label : string) : M unit :=
  fun w => (inr tt, set_console (console w ++ [label]) w).

Definition readFile : M content :=
  fun w =>
    match file w with
    | Some c => (inr c, w)
    | None => (inl ENOENT, w)
    end.

(** [fs.writeFile(path, text, "utf-8")].  A write that fails here is
    one refused when the file is opened ([EACCES], [EROFS], ...):
    nothing has been written and the document is as it was.  The
    open truncates the file, so a write cut short after it would leave
    a truncated document; that failure has no counterpart here. *)
Definition writeFile (c : content) : M unit :=
  fun w =>
    if disk_ok w then (inr tt, set_file (Some c) w) else (inl WriteError, w).

Definition JSON_parse (c : content) : M (list Listing) :=
  match c with
  | Json xs => ret xs
  | Garbage => throw SyntaxError
  end.

Definition JSON_stringify (xs : list Listing) : content :=
  Json (map persist xs).

(** The clock makes its next advance. *)
Definition tick (w : world) : world :=
  match ticks w with
  | [] => w
  | d :: rest => set_clock (clock w + Z.of_nat d) rest w
  end.

(** [Date.now()] and [new Date()]: the clock advances, then is read. *)
Definition Date_now : M Z :=
  fun w => (inr (clock (tick w)), tick w).

Definition send_mail : M unit :=
  fun w =>
    if relay_ok w then (inr tt, set_outbox (S (outbox w)) w)
    else (inl RelayError, w).

End Store.

(* ================================================================== *)
(** * The server: [src/index.js] and [src/unnamed/part_000] *)
(* ================================================================== *)

Module Server.
Import Js Clock Store.
Local Open Scope js_scope.

(** The two versions of the server.  They differ in [readListings]
    (and in its mirror [writeListings]); [DELETE /listings/:id] exists
    in [src/index.js] only. *)
Inductive variant : Type :=
  | IndexJs
  | Part000.

Definition access : M unit :=
  fun w =>
    match file w with
    | Some _ => (inr tt, w)
    | None => (inl ENOENT, w)
    end.

Definition ensureListingsFileExists : M unit :=
  try_catch
    (try_catch access (fun _ => writeFile (JSON_stringify [])))
    (fun _ => console_error "Failed to initialize listings file:").

(** [src/index.js] catches a failed read and answers the empty array;
    [part_000] lets the exception through. *)
Definition readListings (v : variant) : M (list Listing) :=
  match v with
  | IndexJs =>
      try_catch
        (data <- readFile ;; JSON_parse data)
        (fun _ => console_error "Error reading listings:" ;;; ret [])
  | Part000 =>
      data <- readFile ;; JSON_parse data
  end.

Definition writeListings (v : variant) (listings : list Listing) : M unit :=
  match v with
  | IndexJs =>
      try_catch
        (writeFile (JSON_stringify listings))
        (fun e => console_error "Error writing listings:" ;;; throw e)
  | Part000 =>
      writeFile (JSON_stringify listings)
  end.

(** ** Responses *)

(** What the client is sent: [res.status(code).json(v)], or, when the
    handler threw outside any [try], nothing of the service's own.  The
    promise of the handler is rejected and Express 5 hands the error to
    its error handler, which answers 500 with an HTML page: there is
    no JSON body. *)
Inductive response : Type :=
  | mkResponse (status : Z) (body : value)
  | Unhandled (e : error).

Definition status (r : response) : Z :=
  match r with
  | mkResponse code _ => code
  | Unhandled _ => 500
  end.

Definition body (r : response) : value :=
  match r with
  | mkResponse _ v => v
  | Unhandled _ => JUndefined
  end.

(** [res.status(code).json(v)]; [res.json(v)] is [json 200 v]. *)
Definition json (code : Z) (v : value) : response :=
  mkResponse code (to_json v).

Definition failure (message : string) : value :=
  JObj [("success", JBool false); ("message", JStr message)].

Definition handler : Type := world -> response * world.

(** A throw that no [try] of the handler encloses: nothing was read,
    written, logged or sent by the code of the service. *)
Definition unhandled (e : error) : handler :=
  fun w => (Unhandled e, w).

(** [try { m } catch (error) { console.error(label, error);
    res.status(500).json({ success: false, message }) }] *)
Definition guarded (m : M response) (label message : string) : handler :=
  fun w =>
    match m w with
    | (inr r, w') => (r, w')
    | (inl _, w') =>
        (json 500 (failure message), set_console (console w' ++ [label]) w')
    end.

(** [l => l.id === req.params.id] with [find] / [findIndex]: the first
    position holding a match, and the record there. *)
Definition find (rid : string) (listings : list Listing) : option (nat * Listing) :=
  list_find (fun l => id l = rid) listings.

(** ** The routes *)

(** [`... ${v} ...`]: a template literal converts [v] to a string, and
    throws where [Number(v)] does.  The text of the mail is not part
    of the world, so only the throw is kept. *)
Definition template (v : value) : M unit :=
  if unprintable v then throw TypeError else ret tt.

(** [const { name, email, message } = req.body] comes before the
    [try]; the two template literals and the call of the relay are
    inside it. *)
Definition post_contact (req_body : value) : handler :=
  if coercible req_body then
    let name := get_prop req_body "name" in
    let email := get_prop req_body "email" in
    let message := get_prop req_body "message" in
    guarded
      (template name ;;;
       template email ;;;
       template message ;;;
       send_mail ;;;
       ret (json 200 (JObj [("success", JBool true); ("message", JStr "Email sent!")])))
      "Email error:" "Failed to send email"
  else unhandled TypeError.

Definition get_listings (v : variant) : handler :=
  guarded
    (listings <- readListings v ;;
     ret (json 200 (JArr (map encode listings))))
    "Read listings error:" "Failed to read listings".

(** [Number(v)] as a step of a handler. *)
Definition Number (v : value) : M number :=
  match ToNumber v with
  | Some x => ret x
  | None => throw TypeError
  end.

(** The object literal of [POST /listings], given what its three
    calls returned: [Date.now()], [Number(price)] and [new Date()]. *)
Definition newListing (req_body : value) (now : Z) (price : number) (created : Z)
    : Listing :=
  let imageUrl := get_prop req_body "imageUrl" in
  {| id := toString now;
     title := get_prop req_body "title";
     price := Num price;
     description := get_prop req_body "description";
     contact := get_prop req_body "contact";
     imageUrl := if ToBoolean imageUrl then imageUrl else JStr "";
     likes := Num (of_Z 0);
     sold := false;
     createdAt := toISOString created |}.

(** [const { title, price, description, contact, imageUrl } = req.body]
    comes before the check and before the [try]. *)
Definition post_listings (v : variant) (req_body : value) : handler :=
  if coercible req_body then
    let title := get_prop req_body "title" in
    let price := get_prop req_body "price" in
    let description := get_prop req_body "description" in
    let contact := get_prop req_body "contact" in
    if negb (ToBoolean title) || negb (ToBoolean price)
       || negb (ToBoolean description) || negb (ToBoolean contact)
    then fun w => (json 400 (failure "Missing required fields"), w)
    else
      guarded
        (listings <- readListings v ;;
         now <- Date_now ;;
         price <- Number price ;;
         created <- Date_now ;;
         let listing := newListing req_body now price created in
         writeListings v (listings ++ [listing]) ;;;
         ret (json 201 (encode listing)))
        "Create listing error:" "Failed to create listing"
  else unhandled TypeError.

Definition post_like (v : variant) (rid : string) : handler :=
  guarded
    (listings <- readListings v ;;
     match find rid listings with
     | None => ret (json 404 (failure "Not found"))
     | Some (i, listing) =>
         let listing' := set_likes (plus_one (likes listing)) listing in
         writeListings v (<[i := listing']> listings) ;;;
         ret (json 200 (JObj [("success", JBool true);
                              ("likes", jnum_value (likes listing'))]))
     end)
    "Like listing error:" "Failed to like listing".

Definition post_buy (v : variant) (rid : string) : handler :=
  guarded
    (listings <- readListings v ;;
     match find rid listings with
     | None => ret (json 404 (failure "Not found"))
     | Some (i, listing) =>
         if sold listing then ret (json 400 (failure "Already sold"))
         else
           writeListings v (<[i := set_sold true listing]> listings) ;;;
           ret (json 200 (JObj [("success", JBool true); ("sold", JBool true)]))
     end)
    "Buy listing error:" "Failed to mark as sold".

Definition delete_listing (rid : string) : handler :=
  guarded
    (listings <- readListings IndexJs ;;
     match find rid listings with
     | None => ret (json 404 (failure "Not found"))
     | Some (index, removed) =>
         writeListings IndexJs (delete index listings) ;;;
         ret (json 200 (JObj [("success", JBool true);
                              ("removedId", JStr (id removed))]))
     end)
    "Delete listing error:" "Failed to delete listing".

(** The requests the routes answer. *)
Inductive request : Type :=
  | GET_listings
  | POST_listings (req_body : value)
  | POST_like (rid : string)
  | POST_buy (rid : string)
  | DELETE_listing (rid : string)
  | POST_contact (req_body : value).

(** The handler a version of the server registers for a request, if
    any. *)
Definition route (v : variant) (r : request) : option handler :=
  match r with
  | GET_listings => Some (get_listings v)
  | POST_listings req_body => Some (post_listings v req_body)
  | POST_like rid => Some (post_like v rid)
  | POST_buy rid => Some (post_buy v rid)
  | DELETE_listing rid =>
      match v with
      | IndexJs => Some (delete_listing rid)
      | Part000 => None
      end
  | POST_contact req_body => Some (post_contact req_body)
  end.

End Server.

(* ================================================================== *)
(** * Predicates of the specification and sample data *)
(* ================================================================== *)

Module Spec.
Import Js Clock Store Server.

(** A record that [JSON.stringify] followed by [JSON.parse] gives back
    unchanged.  Every record of a file the service wrote is one. *)
Definition clean (l : Listing) : Prop := persist l = l.

(** [likes] holds a count: an integer from [0] to [2^53], the range a
    counter that starts at [0] and is only incremented can reach. *)
Definition counted (l : Listing) : Prop :=
  exists n : Z, 0 <= n <= 2 ^ 53 /\ likes l = Num (of_Z n).

Definition well_formed (xs : list Listing) : Prop :=
  Forall (fun l => clean l /\ counted l) xs.

(** The number a numeric property converts to in a comparison. *)
Definition jnum_number (n : jnum) : number :=
  match n with
  | Null => S754_zero false
  | Num x => x
  end.

(** [b] is a later state of the record [a]: same id, still sold if it
    was sold, and at least as many likes. *)
Definition keeps (a b : Listing) : Prop :=
  id b = id a /\
  (sold a = true -> sold b = true) /\
  js_leb (jnum_number (likes a)) (jnum_number (likes b)) = true.

(** The ways one request changes the collection. *)
Inductive transition : list Listing -> list Listing -> Prop :=
  | t_same xs :
      transition xs xs
  | t_created xs l :
      transition xs (xs ++ [l])
  | t_updated xs i l l' :
      xs !! i = Some l -> keeps l l' ->
      transition xs (<[i := l']> xs)
  | t_deleted xs i :
      (i < length xs)%nat ->
      transition xs (delete i xs).

(** A create request passes the check when the four required
    properties are present and truthy. *)
Definition valid (req_body : value) : Prop :=
  ToBoolean (get_prop req_body "title") = true /\
  ToBoolean (get_prop req_body "price") = true /\
  ToBoolean (get_prop req_body "description") = true /\
  ToBoolean (get_prop req_body "contact") = true.

(** What a handler may leave in the file of [w]: what was there, or a
    well-formed collection one transition away. *)
Definition next_file (w : world) (f : option content) : Prop :=
  f = file w
  \/ exists ys, f = Some (Json ys)
                /\ transition (listings_of w) ys /\ well_formed ys.

(** The worlds the server can be in: it starts where there is no
    file and runs [ensureListingsFileExists], then answers requests. *)
Inductive reachable (v : variant) : world -> Prop :=
  | reachable_start w :
      file w = None ->
      reachable v (snd (ensureListingsFileExists w))
  | reachable_step w req h :
      reachable v w -> route v req = Some h ->
      reachable v (snd (h w)).

(** The record a create request leaves in the file and sends back:
    the object literal with the two clock readings of the request,
    as it reads back from JSON. *)
Definition created (req_body : value) (p : number) (w : world) : Listing :=
  persist (newListing req_body (clock (tick w)) p (clock (tick (tick w)))).

(** The world after [n] successive [POST /listings/:id/like]. *)
Definition liked (v : variant) (rid : string) (n : nat) (w : world) : world :=
  Nat.iter n (fun w' => snd (post_like v rid w')) w.

(** ** Sentences of the specification that the code does not satisfy,
    as they are written *)

(** "A create request with the four required fields present and
    truthy returns the created listing." *)
Definition create_succeeds (v : variant) (req_body : value) (w : world) : Prop :=
  valid req_body -> status (fst (post_listings v req_body w)) = 201.


(** "A like increments the [likes] of the record by exactly 1." *)
Definition like_increments_by_one (v : variant) (rid : string) (w : world) : Prop :=
  forall xs i l x n,
    file w = Some (Json xs) -> find rid xs = Some (i, l) ->
    likes l = Num x -> to_Z x = Some n ->
    exists l' x',
      listings_of (snd (post_like v rid w)) !! i = Some l'
      /\ likes l' = Num x' /\ to_Z x' = Some (n + 1).

(** "A second delete of the same id returns 404." *)
Definition second_delete_not_found (rid : string) (w : world) : Prop :=
  status (fst (delete_listing rid (snd (delete_listing rid w)))) = 404.

(** "With the document missing or invalid, the read fails and List
    answers 500." *)
Definition read_failure_surfaces (v : variant) (w : world) : Prop :=
  (exists e w', readListings v w = (inl e, w'))
  /\ status (fst (get_listings v w)) = 500.


(** "The persisted listing's price equals [Number(price)]." *)
Definition persisted_price_is_Number (v : variant) (req_body : value) (w : world) : Prop :=
  exists r x,
    last (listings_of (snd (post_listings v req_body w))) = Some r
    /\ ToNumber (get_prop req_body "price") = Some x
    /\ price r = Num x.




(** The document is missing or is not JSON. *)
Definition unreadable (w : world) : Prop :=
  file w = None \/ file w = Some Garbage.

(** ** Sample data *)

Definition lamp : value :=
  JObj [ ("title", JStr "Lamp"); ("price", JNum (of_Z 20));
         ("description", JStr "IKEA"); ("contact", JStr "a@b.com") ].

Definition lamp_record (rid : string) (n : Z) (s : bool) : Listing :=
  {| id := rid; title := JStr "Lamp"; price := Num (of_Z 20);
     description := JStr "IKEA"; contact := JStr "a@b.com";
     imageUrl := JStr ""; likes := Num (of_Z n); sold := s;
     createdAt := "2023-11-14T22:13:20.000Z" |}.

Definition odd_priced : value :=
  JObj [ ("title", JStr "Lamp"); ("price", JObj [("toString", JNum (of_Z 1))]);
         ("description", JStr "IKEA"); ("contact", JStr "a@b.com") ].

Definition abc_priced : value :=
  JObj [ ("title", JStr "Lamp"); ("price", JStr "abc");
         ("description", JStr "IKEA"); ("contact", JStr "a@b.com") ].

Definition world_with (f : option content) : world :=
  {| file := f; disk_ok := true; clock := 1700000000000;
     ticks := [0; 0; 0; 0]%nat; relay_ok := true; outbox := 0;
     console := [] |}.

End Spec.

(* ================================================================== *)
(** * Doubles that hold integers *)
(* ================================================================== *)

(** [of_Z] is exact from [0] to [2^53]; adding one is exact below
    [2^53] and does nothing at [2^53]. *)
Module NumberFacts.
Import Js.

Lemma iter_xO_shl (k : nat) (p : positive) : Nat.iter k xO p = shl k p.
Proof.
  induction k as [| k IH]; [reflexivity |].
  rewrite Nat.iter_succ, IH. reflexivity.
Qed.

Lemma iter_pos_nat {A} (f : A -> A) (n : positive) (x : A) :
  SpecFloat.iter_pos f n x = Nat.iter (Pos.to_nat n) f x.
Proof.
  revert x. induction n as [n IH | n IH |]; intros x; cbn [SpecFloat.iter_pos].
  - rewrite !IH, Pos2Nat.inj_xI.
    replace (S (2 * Pos.to_nat n))%nat
      with (Pos.to_nat n + (Pos.to_nat n + 1))%nat by lia.
    rewrite !Nat.iter_add. reflexivity.
  - rewrite !IH, Pos2Nat.inj_xO.
    replace (2 * Pos.to_nat n)%nat with (Pos.to_nat n + Pos.to_nat n)%nat by lia.
    rewrite Nat.iter_add. reflexivity.
  - reflexivity.
Qed.

Lemma pos_iter_nat {A} (f : A -> A) (n : positive) (x : A) :
  Pos.iter f x n = Nat.iter (Pos.to_nat n) f x.
Proof.
  revert x. induction n as [n IH | n IH |]; intros x; cbn [Pos.iter].
  - rewrite !IH, Pos2Nat.inj_xI.
    replace (S (2 * Pos.to_nat n))%nat
      with (1 + (Pos.to_nat n + Pos.to_nat n))%nat by lia.
    rewrite !Nat.iter_add. reflexivity.
  - rewrite !IH, Pos2Nat.inj_xO.
    replace (2 * Pos.to_nat n)%nat with (Pos.to_nat n + Pos.to_nat n)%nat by lia.
    rewrite Nat.iter_add. reflexivity.
  - reflexivity.
Qed.

Lemma shl_value (k : nat) (p : positive) :
  Zpos (shl k p) = Zpos p * 2 ^ Z.of_nat k.
Proof.
  induction k as [| k IH].
  - cbn. lia.
  - cbn [shl]. rewrite Pos2Z.inj_xO, IH.
    rewrite Nat2Z.inj_succ, Z.pow_succ_r by lia. lia.
Qed.

Lemma digits_log2 (p : positive) :
  Zpos (digits2_pos p) = Z.log2 (Zpos p) + 1.
Proof.
  induction p as [p IH | p IH |]; cbn [digits2_pos].
  - rewrite Pos2Z.inj_succ, IH, Pos2Z.inj_xI, Z.log2_succ_double; lia.
  - rewrite Pos2Z.inj_succ, IH, Pos2Z.inj_xO, Z.log2_double; lia.
  - reflexivity.
Qed.

Lemma digits_shl (k : nat) (p : positive) :
  Zpos (digits2_pos (shl k p)) = Zpos (digits2_pos p) + Z.of_nat k.
Proof.
  induction k as [| k IH].
  - cbn. lia.
  - cbn [shl digits2_pos]. rewrite Pos2Z.inj_succ, IH. lia.
Qed.

Lemma shr_exact (k : nat) (q : positive) :
  Nat.iter k shr_1 (Build_shr_record (Zpos (shl k q)) false false)
  = Build_shr_record (Zpos q) false false.
Proof.
  induction k as [| k IH]; [reflexivity |].
  rewrite Nat.iter_succ_r. cbn [shl shr_1 orb]. apply IH.
Qed.

Lemma shr_fexp_canonical (q : positive) (e : Z) :
  Zpos (digits2_pos q) = 53 -> -1074 <= e <= 971 ->
  shr_fexp prec emax (Zpos q) e loc_Exact
  = (Build_shr_record (Zpos q) false false, e).
Proof.
  intros Hd He. unfold shr_fexp. cbn [Zdigits2 shr_record_of_loc]. rewrite Hd.
  replace (fexp prec emax (53 + e) - e) with 0
    by (unfold fexp, emin, prec, emax; lia).
  reflexivity.
Qed.

(** The last step of [binary_round_aux] on a mantissa of 53 digits. *)
Lemma round_tail (s : bool) (q : positive) (e : Z) :
  Zpos (digits2_pos q) = 53 -> -1074 <= e <= 971 ->
  (let '(mrs, e') := shr_fexp prec emax (Zpos q) e loc_Exact in
   match shr_m mrs with
   | Z0 => S754_zero s
   | Zpos m => if e' <=? emax - prec then S754_finite s m e' else S754_infinity s
   | Zneg _ => S754_nan
   end) = S754_finite s q e.
Proof.
  intros Hd He. rewrite shr_fexp_canonical by assumption. cbn [shr_m].
  unfold prec, emax. destruct (Z.leb_spec e (1024 - 53)); [reflexivity | lia].
Qed.

(** A mantissa of 53 digits at an exponent in range is left as it is. *)
Lemma round_canonical (s : bool) (q : positive) (e : Z) :
  Zpos (digits2_pos q) = 53 -> -1074 <= e <= 971 ->
  binary_round_aux prec emax s (Zpos q) e loc_Exact = S754_finite s q e.
Proof.
  intros Hd He. unfold binary_round_aux.
  rewrite shr_fexp_canonical by assumption.
  cbn [shr_m loc_of_shr_record round_nearest_even].
  apply round_tail; assumption.
Qed.

Lemma shl_align_ge (mx : positive) (ex ex' : Z) :
  ex <= ex' -> shl_align mx ex ex' = (mx, ex).
Proof.
  intros H. unfold shl_align.
  destruct (ex' - ex) eqn:E; try reflexivity. lia.
Qed.

Lemma shl_align_lt (mx : positive) (ex : Z) (k : nat) :
  shl_align mx ex (ex - Z.of_nat (S k)) = (shl (S k) mx, ex - Z.of_nat (S k)).
Proof.
  unfold shl_align.
  replace (ex - Z.of_nat (S k) - ex) with (Zneg (Pos.of_succ_nat k)) by lia.
  rewrite pos_iter_nat, SuccNat2Pos.id_succ, iter_xO_shl. reflexivity.
Qed.

Lemma shr_nat (mrs : shr_record) (e : Z) (k : nat) :
  shr mrs e (Z.of_nat k) = (Nat.iter k shr_1 mrs, e + Z.of_nat k).
Proof.
  destruct k as [| k].
  - cbn. rewrite Z.add_0_r. reflexivity.
  - replace (Z.of_nat (S k)) with (Zpos (Pos.of_succ_nat k)) by lia.
    cbn [shr]. rewrite iter_pos_nat, SuccNat2Pos.id_succ. reflexivity.
Qed.

(** Rounding a 53-digit mantissa followed by [k] zero bits is exact. *)
Lemma round_exact_shr (s : bool) (q : positive) (k : nat) (e : Z) :
  Zpos (digits2_pos q) = 53 -> -1074 <= e + Z.of_nat k <= 971 ->
  binary_round prec emax s (shl k q) e = S754_finite s q (e + Z.of_nat k).
Proof.
  intros Hd He. unfold binary_round. rewrite digits_shl, Hd.
  assert (Hf : fexp prec emax (53 + Z.of_nat k + e) = e + Z.of_nat k)
    by (unfold fexp, emin, prec, emax; lia).
  rewrite Hf, shl_align_ge by lia.
  unfold binary_round_aux. unfold shr_fexp at 1.
  cbn [Zdigits2 shr_record_of_loc]. rewrite digits_shl, Hd, Hf.
  replace (e + Z.of_nat k - e) with (Z.of_nat k) by lia.
  rewrite shr_nat, shr_exact.
  cbn [shr_m loc_of_shr_record round_nearest_even].
  apply round_tail; assumption.
Qed.

(** Rounding a mantissa of fewer than 53 digits pads it with zeros. *)
Lemma round_exact_shl (s : bool) (p : positive) (k : nat) (e : Z) :
  Zpos (digits2_pos p) + Z.of_nat k = 53 -> -1074 <= e - Z.of_nat k <= 971 ->
  binary_round prec emax s p e = S754_finite s (shl k p) (e - Z.of_nat k).
Proof.
  intros Hd He. unfold binary_round.
  assert (Hf : fexp prec emax (Zpos (digits2_pos p) + e) = e - Z.of_nat k)
    by (unfold fexp, emin, prec, emax; lia).
  rewrite Hf.
  destruct k as [| k].
  - rewrite shl_align_ge by lia. cbn [shl]. cbn [Z.of_nat] in *.
    rewrite Z.sub_0_r. apply round_canonical; lia.
  - rewrite shl_align_lt.
    apply round_canonical; [rewrite digits_shl; lia | lia].
Qed.


Lemma shl_shl (a b : nat) (p : positive) : shl a (shl b p) = shl (a + b) p.
Proof. induction a as [| a IH]; cbn [shl Nat.add]; congruence. Qed.

Lemma shl_align_fst (mx : positive) (ex : Z) (j : nat) :
  fst (shl_align mx ex (ex - Z.of_nat j)) = shl j mx.
Proof.
  destruct j as [| j].
  - rewrite shl_align_ge by (cbn; lia). reflexivity.
  - rewrite shl_align_lt. reflexivity.
Qed.

Lemma digits_small (p : positive) :
  Zpos p < 2 ^ 53 -> Zpos (digits2_pos p) + Z.of_nat (pad p) = 53.
Proof.
  intros H. unfold pad. rewrite digits_log2.
  assert (Z.log2 (Zpos p) < 53) by (apply Z.log2_lt_pow2; lia).
  pose proof (Z.log2_nonneg (Zpos p)). lia.
Qed.

Lemma pad_bound (p : positive) : (pad p <= 52)%nat.
Proof. unfold pad. pose proof (Pos2Z.is_pos (digits2_pos p)). lia. Qed.

(** The double of a positive integer below [2^53]. *)
Lemma of_Z_small (p : positive) :
  Zpos p < 2 ^ 53 ->
  of_Z (Zpos p) = S754_finite false (shl (pad p) p) (- Z.of_nat (pad p)).
Proof.
  intros H. unfold of_Z. cbn [binary_normalize].
  pose proof (pad_bound p).
  rewrite (round_exact_shl false p (pad p) 0) by (try apply digits_small; lia).
  reflexivity.
Qed.

(** Adding one is exact below [2^53]. *)
Lemma add_one_exact (n : Z) :
  0 <= n -> n + 1 < 2 ^ 53 -> js_add (of_Z n) (of_Z 1) = of_Z (n + 1).
Proof.
  intros H0 H1. destruct n as [| p | p]; [reflexivity | | lia].
  replace (Zpos p + 1) with (Zpos (p + 1)) by lia.
  rewrite (of_Z_small p), (of_Z_small (p + 1)) by lia.
  change (of_Z 1) with (S754_finite false (shl 52 1) (-52)).
  pose proof (pad_bound p) as Hp. pose proof (pad_bound (p + 1)) as Hp'.
  unfold js_add, SFadd.
  replace (Z.min (- Z.of_nat (pad p)) (-52)) with (-52) by lia.
  replace (-52) with (- Z.of_nat (pad p) - Z.of_nat (52 - pad p)) at 1 by lia.
  rewrite shl_align_fst, shl_shl.
  replace (52 - pad p + pad p)%nat with 52%nat by lia.
  rewrite shl_align_ge by lia. cbn [fst cond_Zopp].
  replace (Zpos (shl 52 p) + Zpos (shl 52 1)) with (Zpos (shl 52 (p + 1)))
    by (rewrite !shl_value; lia).
  cbn [binary_normalize].
  replace 52%nat with ((52 - pad (p + 1)) + pad (p + 1))%nat at 1 by lia.
  rewrite <- shl_shl.
  rewrite round_exact_shr.
  - f_equal. lia.
  - rewrite digits_shl. apply digits_small. lia.
  - lia.
Qed.

(** At [2^53 - 1] the sum is [2^53], still exact; at [2^53] the sum
    [2^53 + 1] is not a double and rounds back to [2^53]. *)
Lemma add_one_top :
  js_add (of_Z (2 ^ 53 - 1)) (of_Z 1) = of_Z (2 ^ 53).
Proof. vm_compute. reflexivity. Qed.

Lemma add_one_saturates :
  js_add (of_Z (2 ^ 53)) (of_Z 1) = of_Z (2 ^ 53).
Proof. vm_compute. reflexivity. Qed.


Lemma of_Z_top : of_Z (2 ^ 53) = S754_finite false (shl 52 1) 1.
Proof. vm_compute. reflexivity. Qed.

(** [of_Z] is exact on [0 .. 2^53]. *)
Lemma to_Z_of_Z (n : Z) : 0 <= n <= 2 ^ 53 -> to_Z (of_Z n) = Some n.
Proof.
  intros [H0 H1]. destruct n as [| p | p]; [reflexivity | | lia].
  destruct (Z.eq_dec (Zpos p) (2 ^ 53)) as [-> | Hne]; [reflexivity |].
  rewrite of_Z_small by lia. unfold to_Z.
  destruct (pad p) as [| k] eqn:E.
  - cbn. f_equal. lia.
  - destruct (Z.leb_spec 0 (- Z.of_nat (S k))); [lia |].
    rewrite Z.opp_involutive, shl_value.
    rewrite Z.mod_mul, Z.div_mul by lia. reflexivity.
Qed.

Lemma of_Z_inj (a b : Z) :
  0 <= a <= 2 ^ 53 -> 0 <= b <= 2 ^ 53 -> of_Z a = of_Z b -> a = b.
Proof.
  intros Ha Hb E. apply (f_equal to_Z) in E.
  rewrite !to_Z_of_Z in E by assumption. congruence.
Qed.

Lemma pad_antitone (p q : positive) :
  (p <= q)%positive -> (pad q <= pad p)%nat.
Proof.
  intros H. unfold pad. rewrite !digits_log2.
  assert (Z.log2 (Zpos p) <= Z.log2 (Zpos q)) by (apply Z.log2_le_mono; lia).
  lia.
Qed.

(** [of_Z] is monotone on [0 .. 2^53]. *)
Lemma leb_of_Z (a b : Z) :
  0 <= a -> a <= b -> b <= 2 ^ 53 -> js_leb (of_Z a) (of_Z b) = true.
Proof.
  intros H0 Hab Hb.
  destruct a as [| p | p]; [| | lia].
  { destruct b as [| q | q]; [reflexivity | | lia].
    destruct (Z.eq_dec (Zpos q) (2 ^ 53)) as [-> | Hne]; [reflexivity |].
    rewrite of_Z_small by lia. reflexivity. }
  destruct b as [| q | q]; [lia | | lia].
  destruct (Z.eq_dec (Zpos q) (2 ^ 53)) as [Eq | Hq].
  - rewrite Eq, of_Z_top.
    destruct (Z.eq_dec (Zpos p) (2 ^ 53)) as [Ep | Hp].
    + rewrite Ep, of_Z_top. reflexivity.
    + rewrite of_Z_small by lia. unfold js_leb, SFleb, SFcompare.
      destruct (Z.compare_spec (- Z.of_nat (pad p)) 1); [lia | reflexivity | lia].
  - rewrite !of_Z_small by lia. unfold js_leb, SFleb, SFcompare.
    pose proof (pad_antitone p q ltac:(lia)) as Hpad.
    destruct (Z.compare_spec (- Z.of_nat (pad p)) (- Z.of_nat (pad q))) as [E | L | G];
      [| reflexivity | lia].
    assert (Ek : pad p = pad q) by lia. rewrite Ek.
    change (Pos.compare_cont Eq ?x ?y) with (Pos.compare x y).
    destruct (Pos.compare_spec (shl (pad q) p) (shl (pad q) q)) as [_ | _ | G];
      [reflexivity | reflexivity |].
    exfalso. apply Pos2Z.pos_lt_pos in G. rewrite !shl_value in G.
    assert (0 < 2 ^ Z.of_nat (pad q)) by (apply Z.pow_pos_nonneg; lia). nia.
Qed.

End NumberFacts.

(* ================================================================== *)
(** * Running the handlers *)
(* ================================================================== *)

Module Run.
Import Js Clock Store Server Spec.

(** A value with a truthy property can be read from. *)
Lemma truthy_coercible (v : value) (k : string) :
  ToBoolean (get_prop v k) = true -> coercible v = true.
Proof. destruct v; cbn; intros H; (reflexivity || discriminate H). Qed.

Lemma valid_coercible (req_body : value) :
  valid req_body -> coercible req_body = true.
Proof. intros (Ht & _). exact (truthy_coercible _ _ Ht). Qed.

Lemma readListings_ok (v : variant) (w : world) (xs : list Listing) :
  file w = Some (Json xs) -> readListings v w = (inr xs, w).
Proof.
  intros H. destruct v; unfold readListings, try_catch, bind, readFile;
    rewrite H; reflexivity.
Qed.

Lemma writeListings_ok (v : variant) (xs : list Listing) (w : world) :
  disk_ok w = true ->
  writeListings v xs w = (inr tt, set_file (Some (Json (map persist xs))) w).
Proof.
  intros H. destruct v; unfold writeListings, try_catch, writeFile;
    rewrite H; reflexivity.
Qed.

(** [find] returns the first record with the id, and its position. *)
Lemma find_Some (rid : string) (xs : list Listing) (i : nat) (l : Listing) :
  find rid xs = Some (i, l) <->
  xs !! i = Some l /\ id l = rid /\
  forall j y, xs !! j = Some y -> (j < i)%nat -> id y <> rid.
Proof. exact (list_find_Some (fun y => id y = rid) xs i l). Qed.

Lemma find_None (rid : string) (xs : list Listing) :
  find rid xs = None <-> Forall (fun l => id l <> rid) xs.
Proof. exact (list_find_None (fun y => id y = rid) xs). Qed.

(** Rewriting the record found, keeping its id, and serialising the
    collection leaves it the first match. *)
Lemma find_update (rid : string) (xs : list Listing) (i : nat) (l l' : Listing) :
  find rid xs = Some (i, l) -> id l' = rid ->
  find rid (map persist (<[i := l']> xs)) = Some (i, persist l').
Proof.
  intros Hf Hid. apply find_Some in Hf as (Hi & _ & Hfirst).
  apply find_Some. repeat split.
  - rewrite list_lookup_fmap, list_lookup_insert_eq; [reflexivity |].
    eapply lookup_lt_Some; eassumption.
  - exact Hid.
  - intros j y Hj Hlt.
    rewrite list_lookup_fmap, list_lookup_insert_ne in Hj by lia.
    destruct (xs !! j) as [y0 |] eqn:E; [| discriminate].
    injection Hj as <-. cbn. eapply Hfirst; eassumption.
Qed.

Lemma clean_map (xs : list Listing) : Forall clean xs -> map persist xs = xs.
Proof.
  induction 1 as [| l xs Hl _ IH]; [reflexivity |].
  cbn [map]. rewrite Hl, IH. reflexivity.
Qed.

Lemma well_formed_clean (xs : list Listing) : well_formed xs -> Forall clean xs.
Proof.
  intros H. eapply Forall_impl; [exact H |]. intros l [Hl _]. exact Hl.
Qed.


(** What [post_buy] does once the file is read and the id found. *)
Lemma post_buy_found (v : variant) (rid : string) (w : world)
    (xs : list Listing) (i : nat) (l : Listing) :
  file w = Some (Json xs) -> find rid xs = Some (i, l) ->
  post_buy v rid w =
    if sold l then (json 400 (failure "Already sold"), w)
    else if disk_ok w then
      (json 200 (JObj [("success", JBool true); ("sold", JBool true)]),
       set_file (Some (Json (map persist (<[i := set_sold true l]> xs)))) w)
    else
      (json 500 (failure "Failed to mark as sold"),
       set_console
         (console w ++ (match v with
                        | IndexJs => ["Error writing listings:"]
                        | Part000 => []
                        end) ++ ["Buy listing error:"]) w).
Proof.
  intros Hfile Hfind. unfold post_buy, guarded, bind.
  rewrite (readListings_ok v w xs Hfile), Hfind.
  destruct (sold l); [reflexivity |].
  destruct (disk_ok w) eqn:Hd.
  - rewrite writeListings_ok by assumption. reflexivity.
  - destruct v; unfold writeListings, try_catch, writeFile, bind, console_error,
      throw; rewrite Hd; cbn.
    + unfold set_console; cbn. rewrite <- app_assoc. reflexivity.
    + reflexivity.
Qed.


Lemma find_insert (rid : string) (xs : list Listing) (i : nat) (l l' : Listing) :
  find rid xs = Some (i, l) -> id l' = rid ->
  find rid (<[i := l']> xs) = Some (i, l').
Proof.
  intros Hf Hid. apply find_Some in Hf as (Hi & _ & Hfirst).
  apply find_Some. repeat split.
  - apply list_lookup_insert_eq. eapply lookup_lt_Some; eassumption.
  - exact Hid.
  - intros j y Hj Hlt. rewrite list_lookup_insert_ne in Hj by lia.
    eapply Hfirst; eassumption.
Qed.

(** What [post_like] does once the file is read and the id found. *)
Lemma post_like_found (v : variant) (rid : string) (w : world)
    (xs : list Listing) (i : nat) (l : Listing) :
  file w = Some (Json xs) -> find rid xs = Some (i, l) ->
  let l' := set_likes (plus_one (likes l)) l in
  post_like v rid w =
    if disk_ok w then
      (json 200 (JObj [("success", JBool true); ("likes", jnum_value (likes l'))]),
       set_file (Some (Json (map persist (<[i := l']> xs)))) w)
    else
      (json 500 (failure "Failed to like listing"),
       set_console
         (console w ++ (match v with
                        | IndexJs => ["Error writing listings:"]
                        | Part000 => []
                        end) ++ ["Like listing error:"]) w).
Proof.
  intros Hfile Hfind l'. unfold post_like, guarded, bind.
  rewrite (readListings_ok v w xs Hfile), Hfind.
  destruct (disk_ok w) eqn:Hd.
  - rewrite writeListings_ok by assumption. reflexivity.
  - destruct v; unfold writeListings, try_catch, writeFile, bind, console_error,
      throw; rewrite Hd; cbn.
    + unfold set_console; cbn. rewrite <- app_assoc. reflexivity.
    + reflexivity.
Qed.

(** A count is written to the file, and sent, as it is. *)
Lemma of_Z_is_json (n : Z) :
  0 <= n <= 2 ^ 53 ->
  json_number (of_Z n) = JNum (of_Z n) /\ json_jnum (Num (of_Z n)) = Num (of_Z n).
Proof.
  intros [H0 H1]. destruct n as [| p | p]; [split; reflexivity | | lia].
  destruct (Z.eq_dec (Zpos p) (2 ^ 53)) as [-> | Hne]; [split; reflexivity |].
  rewrite NumberFacts.of_Z_small by lia. split; reflexivity.
Qed.

Lemma clean_set_likes (l : Listing) (n : Z) :
  clean l -> 0 <= n <= 2 ^ 53 -> clean (set_likes (Num (of_Z n)) l).
Proof.
  unfold clean. intros Hl Hn.
  change (persist (set_likes (Num (of_Z n)) l))
    with (set_likes (json_jnum (Num (of_Z n))) (persist l)).
  rewrite Hl, (proj2 (of_Z_is_json n Hn)). reflexivity.
Qed.

Lemma clean_set_sold (l : Listing) (b : bool) :
  clean l -> clean (set_sold b l).
Proof.
  unfold clean. intros Hl.
  change (persist (set_sold b l)) with (set_sold b (persist l)).
  rewrite Hl. reflexivity.
Qed.

Lemma clean_insert (xs : list Listing) (i : nat) (l : Listing) :
  Forall clean xs -> clean l -> Forall clean (<[i := l]> xs).
Proof. intros Hxs Hl. apply Forall_insert; assumption. Qed.

Lemma set_likes_twice (a b : jnum) (l : Listing) :
  set_likes a (set_likes b l) = set_likes a l.
Proof. reflexivity. Qed.

Lemma set_file_twice (f g : option content) (w : world) :
  set_file f (set_file g w) = set_file f w.
Proof. reflexivity. Qed.


(** ** Serialisation *)

Lemma to_json_defined (v : value) : v <> JUndefined -> to_json v <> JUndefined.
Proof.
  destruct v as [| | b | x | s | vs | fs]; cbn; try congruence.
  destruct x; discriminate.
Qed.

Lemma property_defined (k : string) (v : value) :
  v <> JUndefined -> property k v = [(k, v)].
Proof. destruct v; [congruence | reflexivity ..]. Qed.

Lemma truthy_defined (v : value) : ToBoolean v = true -> v <> JUndefined.
Proof. intros H ->. discriminate. Qed.

Lemma jnum_value_json (p : jnum) :
  to_json (jnum_value p) = jnum_value (json_jnum p).
Proof. destruct p as [| []]; reflexivity. Qed.

Lemma jnum_value_defined (p : jnum) : jnum_value p <> JUndefined.
Proof. destruct p; discriminate. Qed.

(** The JSON of a record whose properties are all defined is the
    record [JSON.parse] reads back. *)
Lemma to_json_encode (l : Listing) :
  title l <> JUndefined -> description l <> JUndefined ->
  contact l <> JUndefined -> imageUrl l <> JUndefined ->
  to_json (encode l) = encode (persist l).
Proof.
  intros Ht Hd Hc Hu. unfold encode.
  cbn [to_json flat_map fst snd].
  rewrite !property_defined
    by (first [apply to_json_defined; first [assumption | apply jnum_value_defined]
              | discriminate]).
  rewrite !jnum_value_json. reflexivity.
Qed.

(** ** The clock *)

Lemma clock_tick (w : world) : clock w <= clock (tick w).
Proof. unfold tick. destruct (ticks w); cbn; lia. Qed.

Lemma file_tick (w : world) : file (tick w) = file w.
Proof. unfold tick. destruct (ticks w); reflexivity. Qed.

Lemma disk_ok_tick (w : world) : disk_ok (tick w) = disk_ok w.
Proof. unfold tick. destruct (ticks w); reflexivity. Qed.

Lemma console_tick (w : world) : console (tick w) = console w.
Proof. unfold tick. destruct (ticks w); reflexivity. Qed.

Lemma toString_nonempty (t : Z) : toString t <> "".
Proof.
  unfold toString, NilZero.string_of_int.
  destruct (Z.to_int t) as [d | d]; [| discriminate].
  destruct d; discriminate.
Qed.

(** ** Create *)

(** What [post_listings] does with a body that passes the check, once
    the file is read and the price converted. *)
Lemma post_listings_valid (v : variant) (req_body : value) (w : world)
    (xs : list Listing) (p : number) :
  valid req_body -> file w = Some (Json xs) ->
  ToNumber (get_prop req_body "price") = Some p ->
  let w2 := tick (tick w) in
  let l := newListing req_body (clock (tick w)) p (clock w2) in
  post_listings v req_body w =
    if disk_ok w then
      (json 201 (encode l), set_file (Some (Json (map persist (xs ++ [l])))) w2)
    else
      (json 500 (failure "Failed to create listing"),
       set_console
         (console w ++ (match v with
                        | IndexJs => ["Error writing listings:"]
                        | Part000 => []
                        end) ++ ["Create listing error:"]) w2).
Proof.
  intros (Ht & Hp & Hd & Hc) Hfile Hnum w2 l. unfold post_listings.
  rewrite (truthy_coercible _ _ Ht), Ht, Hp, Hd, Hc. cbn [negb orb].
  unfold guarded, bind. rewrite (readListings_ok v w xs Hfile).
  unfold Date_now, Number. rewrite Hnum. unfold ret at 1. fold w2. fold l.
  destruct (disk_ok w) eqn:Hdisk.
  - rewrite writeListings_ok by (unfold w2; rewrite !disk_ok_tick; assumption).
    reflexivity.
  - assert (Hd2 : disk_ok w2 = false) by (unfold w2; rewrite !disk_ok_tick; assumption).
    assert (Hc2 : console w2 = console w) by (unfold w2; rewrite !console_tick; reflexivity).
    destruct v; unfold writeListings, try_catch, writeFile, bind, console_error,
      throw; rewrite Hd2; cbn.
    + unfold set_console; cbn. rewrite Hc2, <- app_assoc. reflexivity.
    + rewrite Hc2. reflexivity.
Qed.

(** When [Number(price)] throws, the answer is 500 and nothing is
    written. *)
Lemma post_listings_throws (v : variant) (req_body : value) (w : world)
    (xs : list Listing) :
  valid req_body -> file w = Some (Json xs) ->
  ToNumber (get_prop req_body "price") = None ->
  post_listings v req_body w =
    (json 500 (failure "Failed to create listing"),
     set_console (console (tick w) ++ ["Create listing error:"]) (tick w)).
Proof.
  intros (Ht & Hp & Hd & Hc) Hfile Hnum. unfold post_listings.
  rewrite (truthy_coercible _ _ Ht), Ht, Hp, Hd, Hc. cbn [negb orb].
  unfold guarded, bind. rewrite (readListings_ok v w xs Hfile).
  unfold Date_now, Number. rewrite Hnum. reflexivity.
Qed.

(** ** Delete *)

(** What [delete_listing] does once the file is read and the id
    found. *)
Lemma delete_listing_found (rid : string) (w : world)
    (xs : list Listing) (i : nat) (l : Listing) :
  file w = Some (Json xs) -> find rid xs = Some (i, l) ->
  delete_listing rid w =
    if disk_ok w then
      (json 200 (JObj [("success", JBool true); ("removedId", JStr (id l))]),
       set_file (Some (Json (map persist (delete i xs)))) w)
    else
      (json 500 (failure "Failed to delete listing"),
       set_console
         (console w ++ ["Error writing listings:"; "Delete listing error:"]) w).
Proof.
  intros Hfile Hfind. unfold delete_listing, guarded, bind.
  rewrite (readListings_ok IndexJs w xs Hfile), Hfind.
  destruct (disk_ok w) eqn:Hd.
  - rewrite writeListings_ok by assumption. reflexivity.
  - unfold writeListings, try_catch, writeFile, bind, console_error, throw.
    rewrite Hd. cbn. unfold set_console; cbn. rewrite <- app_assoc. reflexivity.
Qed.

(** With the id on no record, the three routes answer 404 and change
    nothing. *)
Lemma post_like_not_found (v : variant) (rid : string) (w : world)
    (xs : list Listing) :
  file w = Some (Json xs) -> find rid xs = None ->
  post_like v rid w = (json 404 (failure "Not found"), w).
Proof.
  intros Hfile Hfind. unfold post_like, guarded, bind.
  rewrite (readListings_ok v w xs Hfile), Hfind. reflexivity.
Qed.

Lemma post_buy_not_found (v : variant) (rid : string) (w : world)
    (xs : list Listing) :
  file w = Some (Json xs) -> find rid xs = None ->
  post_buy v rid w = (json 404 (failure "Not found"), w).
Proof.
  intros Hfile Hfind. unfold post_buy, guarded, bind.
  rewrite (readListings_ok v w xs Hfile), Hfind. reflexivity.
Qed.

Lemma delete_listing_not_found (rid : string) (w : world) (xs : list Listing) :
  file w = Some (Json xs) -> find rid xs = None ->
  delete_listing rid w = (json 404 (failure "Not found"), w).
Proof.
  intros Hfile Hfind. unfold delete_listing, guarded, bind.
  rewrite (readListings_ok IndexJs w xs Hfile), Hfind. reflexivity.
Qed.

(** Once the only record with the id is removed, the id is on no
    record. *)
Lemma find_delete_unique (rid : string) (xs : list Listing) (i : nat) :
  (forall j y, xs !! j = Some y -> id y = rid -> j = i) ->
  find rid (delete i xs) = None.
Proof.
  intros Huniq. apply find_None, Forall_lookup. intros j y Hj Hid.
  destruct (Nat.lt_ge_cases j i) as [Hlt | Hge].
  - rewrite list_lookup_delete_lt in Hj by assumption.
    specialize (Huniq j y Hj Hid). lia.
  - rewrite list_lookup_delete_ge in Hj by assumption.
    specialize (Huniq (S j) y Hj Hid). lia.
Qed.


(** ** Response bodies *)

Lemma lookup_property (k k' : string) (v : value) (rest : list (string * value)) :
  String.eqb k k' = false ->
  lookup k (property k' v ++ rest) = lookup k rest.
Proof.
  intros H. destruct v; cbn [property app lookup]; rewrite ?H; reflexivity.
Qed.









(** ** Serialising twice *)

(** Induction on a value, with the hypothesis on every element of an
    array and on every property of an object. *)
Lemma value_nested_ind (P : value -> Prop) :
  P JUndefined -> P JNull -> (forall b, P (JBool b)) -> (forall x, P (JNum x)) ->
  (forall s, P (JStr s)) ->
  (forall vs, Forall P vs -> P (JArr vs)) ->
  (forall fs, Forall (fun kv => P (snd kv)) fs -> P (JObj fs)) ->
  forall v, P v.
Proof.
  intros Hu Hn Hb Hx Hs Ha Ho. fix IH 1.
  intros [| | b | x | s | vs | fs];
    [exact Hu | exact Hn | apply Hb | apply Hx | apply Hs | |].
  - apply Ha. induction vs as [| e vs IHvs]; constructor; [apply IH | exact IHvs].
  - apply Ho. induction fs as [| kv fs IHfs]; constructor; [apply IH | exact IHfs].
Qed.

Lemma json_number_idem (x : number) : to_json (json_number x) = json_number x.
Proof. destruct x; reflexivity. Qed.

Lemma element_idem (t : value) :
  to_json t = t -> element (to_json (element t)) = element t.
Proof. intros H. destruct t; cbn [element]; rewrite ?H; reflexivity. Qed.

Lemma property_idem (k : string) (t : value) :
  to_json t = t ->
  flat_map (fun kv => property (fst kv) (to_json (snd kv))) (property k t)
  = property k t.
Proof.
  intros H. destruct t; cbn [property flat_map fst snd]; rewrite ?H;
    reflexivity.
Qed.

(** What was serialised serialises to itself. *)
Lemma to_json_idem (v : value) : to_json (to_json v) = to_json v.
Proof.
  induction v as [| | b | x | s | vs IH | fs IH] using value_nested_ind;
    try reflexivity.
  - apply json_number_idem.
  - cbn [to_json]. f_equal. rewrite map_map.
    induction IH as [| e vs He _ IHvs]; [reflexivity |].
    cbn [map]. rewrite element_idem by exact He. f_equal. exact IHvs.
  - cbn [to_json]. f_equal.
    induction IH as [| kv fs He _ IHfs]; [reflexivity |].
    cbn [flat_map]. rewrite flat_map_app, property_idem by exact He.
    f_equal. exact IHfs.
Qed.

Lemma json_jnum_idem (p : jnum) : json_jnum (json_jnum p) = json_jnum p.
Proof. destruct p as [| []]; reflexivity. Qed.

(** A record read back from the file is clean. *)
Lemma clean_persist (l : Listing) : clean (persist l).
Proof.
  unfold clean, persist. cbn.
  rewrite !to_json_idem, !json_jnum_idem. reflexivity.
Qed.

(** ** Where the handlers leave the file *)

Lemma listings_of_file (w w' : world) :
  file w' = file w -> listings_of w' = listings_of w.
Proof. unfold listings_of. intros ->. reflexivity. Qed.

Lemma readListings_spec (v : variant) (w w' : world) (r : error + list Listing) :
  readListings v w = (r, w') ->
  file w' = file w /\ disk_ok w' = disk_ok w
  /\ forall xs, r = inr xs -> xs = listings_of w.
Proof.
  unfold listings_of.
  destruct v; unfold readListings, try_catch, bind, readFile, JSON_parse,
    console_error, ret, throw;
    destruct (file w) as [[| ys] |] eqn:E; cbn; intros H;
    injection H as <- <-; cbn; rewrite ?E;
    (repeat split; try reflexivity; try assumption);
    intros xs Hxs; try discriminate; injection Hxs as <-; reflexivity.
Qed.

Lemma writeListings_spec (v : variant) (ys : list Listing) (w w' : world)
    (r : error + unit) :
  writeListings v ys w = (r, w') ->
  match r with
  | inr _ => file w' = Some (Json (map persist ys))
  | inl _ => file w' = file w
  end.
Proof.
  destruct v; unfold writeListings, try_catch, bind, writeFile, console_error,
    throw, JSON_stringify;
    destruct (disk_ok w); cbn; intros H; injection H as <- <-; reflexivity.
Qed.

Lemma file_guarded (m : M response) (label message : string) (w : world) :
  file (snd (guarded m label message w)) = file (snd (m w)).
Proof. unfold guarded. destruct (m w) as [[e | r] w']; reflexivity. Qed.

(** ** Counts *)

Lemma plus_one_counted (n : Z) :
  0 <= n <= 2 ^ 53 ->
  exists n', n <= n' <= 2 ^ 53 /\ plus_one (Num (of_Z n)) = Num (of_Z n').
Proof.
  intros Hn. cbn [plus_one].
  destruct (Z.eq_dec n (2 ^ 53)) as [-> | H1].
  { exists (2 ^ 53). split; [lia |]. f_equal; apply NumberFacts.add_one_saturates. }
  destruct (Z.eq_dec n (2 ^ 53 - 1)) as [-> | H2].
  { exists (2 ^ 53). split; [lia |]. f_equal; apply NumberFacts.add_one_top. }
  exists (n + 1). split; [lia |]. f_equal. apply NumberFacts.add_one_exact; lia.
Qed.


(** ** One request, one transition *)

Lemma keeps_refl (l : Listing) : counted l -> keeps l l.
Proof.
  intros (n & Hn & Hl). split; [reflexivity |]. split; [intros Hs; exact Hs |].
  rewrite Hl. cbn [jnum_number]. apply NumberFacts.leb_of_Z; lia.
Qed.

Lemma file_step (w w' : world) :
  well_formed (listings_of w) ->
  next_file w (file w') ->
  transition (listings_of w) (listings_of w')
  /\ well_formed (listings_of w').
Proof.
  intros Hwf [Hf | (ys & Hf & Ht & Hys)].
  - rewrite (listings_of_file w w' Hf). split; [apply t_same | exact Hwf].
  - unfold listings_of at 2 3. rewrite Hf. split; assumption.
Qed.

Lemma well_formed_lookup (xs : list Listing) (i : nat) (l : Listing) :
  well_formed xs -> xs !! i = Some l -> clean l /\ counted l.
Proof. intros Hwf Hi. unfold well_formed in Hwf. rewrite Forall_lookup in Hwf. eauto. Qed.

Lemma post_like_step (v : variant) (rid : string) (w : world) :
  well_formed (listings_of w) ->
  transition (listings_of w) (listings_of (snd (post_like v rid w)))
  /\ well_formed (listings_of (snd (post_like v rid w))).
Proof.
  intros Hwf. apply file_step; [assumption |].
  unfold post_like. rewrite file_guarded. unfold bind at 1.
  destruct (readListings v w) as [[e | xs] w1] eqn:Hr;
    apply readListings_spec in Hr as (Hf & _ & Hxs); cbn [snd];
    [left; assumption |].
  rewrite (Hxs xs eq_refl) in *. clear Hxs.
  destruct (find rid (listings_of w)) as [[i l] |] eqn:Hfind; cbn [snd];
    [| left; assumption].
  apply find_Some in Hfind as (Hi & _ & _).
  destruct (well_formed_lookup _ i l Hwf Hi) as (Hcl & n & Hn & Hlikes).
  destruct (plus_one_counted n Hn) as (n' & Hn' & Hplus).
  cbv zeta. rewrite Hlikes, Hplus. unfold bind.
  destruct (writeListings v _ w1) as [[e | []] w2] eqn:Hw;
    apply writeListings_spec in Hw; cbn [snd];
    [left; congruence |].
  assert (Hcl' : clean (set_likes (Num (of_Z n')) l))
    by (apply clean_set_likes; [assumption | lia]).
  right. eexists. split; [exact Hw |].
  rewrite clean_map
    by (apply clean_insert; [apply well_formed_clean; assumption | assumption]).
  split.
  - apply t_updated with (l := l); [exact Hi |].
    split; [reflexivity |]. split; [intros Hs; exact Hs |].
    rewrite Hlikes. cbn [jnum_number likes set_likes].
    apply NumberFacts.leb_of_Z; lia.
  - apply Forall_insert; [exact Hwf |]. split; [exact Hcl' |].
    exists n'. split; [lia | reflexivity].
Qed.

Lemma post_buy_step (v : variant) (rid : string) (w : world) :
  well_formed (listings_of w) ->
  transition (listings_of w) (listings_of (snd (post_buy v rid w)))
  /\ well_formed (listings_of (snd (post_buy v rid w))).
Proof.
  intros Hwf. apply file_step; [assumption |].
  unfold post_buy. rewrite file_guarded. unfold bind at 1.
  destruct (readListings v w) as [[e | xs] w1] eqn:Hr;
    apply readListings_spec in Hr as (Hf & _ & Hxs); cbn [snd];
    [left; assumption |].
  rewrite (Hxs xs eq_refl) in *. clear Hxs.
  destruct (find rid (listings_of w)) as [[i l] |] eqn:Hfind; cbn [snd];
    [| left; assumption].
  apply find_Some in Hfind as (Hi & _ & _).
  destruct (well_formed_lookup _ i l Hwf Hi) as (Hcl & Hcount).
  destruct (sold l) eqn:Hsold; cbn [snd]; [left; assumption |].
  unfold bind.
  destruct (writeListings v _ w1) as [[e | []] w2] eqn:Hw;
    apply writeListings_spec in Hw; cbn [snd];
    [left; congruence |].
  right. eexists. split; [exact Hw |].
  rewrite clean_map
    by (apply clean_insert;
        [apply well_formed_clean; assumption | apply clean_set_sold; assumption]).
  split.
  - apply t_updated with (l := l); [exact Hi |].
    destruct (keeps_refl l Hcount) as (_ & _ & Hle).
    split; [reflexivity |]. split; [intros _; reflexivity | exact Hle].
  - apply Forall_insert; [exact Hwf |].
    split; [apply clean_set_sold; assumption | exact Hcount].
Qed.

Lemma delete_listing_step (rid : string) (w : world) :
  well_formed (listings_of w) ->
  transition (listings_of w) (listings_of (snd (delete_listing rid w)))
  /\ well_formed (listings_of (snd (delete_listing rid w))).
Proof.
  intros Hwf. apply file_step; [assumption |].
  unfold delete_listing. rewrite file_guarded. unfold bind at 1.
  destruct (readListings IndexJs w) as [[e | xs] w1] eqn:Hr;
    apply readListings_spec in Hr as (Hf & _ & Hxs); cbn [snd];
    [left; assumption |].
  rewrite (Hxs xs eq_refl) in *. clear Hxs.
  destruct (find rid (listings_of w)) as [[i l] |] eqn:Hfind; cbn [snd];
    [| left; assumption].
  apply find_Some in Hfind as (Hi & _ & _).
  unfold bind.
  destruct (writeListings IndexJs _ w1) as [[e | []] w2] eqn:Hw;
    apply writeListings_spec in Hw; cbn [snd];
    [left; congruence |].
  right. eexists. split; [exact Hw |].
  rewrite clean_map by (apply Forall_delete, well_formed_clean; assumption).
  split.
  - apply t_deleted. eapply lookup_lt_Some; eassumption.
  - apply Forall_delete. exact Hwf.
Qed.

Lemma post_listings_step (v : variant) (req_body : value) (w : world) :
  well_formed (listings_of w) ->
  transition (listings_of w) (listings_of (snd (post_listings v req_body w)))
  /\ well_formed (listings_of (snd (post_listings v req_body w))).
Proof.
  intros Hwf. apply file_step; [assumption |].
  unfold post_listings.
  destruct (coercible req_body); [| left; reflexivity].
  destruct (negb _ || negb _ || negb _ || negb _); [left; reflexivity |].
  rewrite file_guarded. unfold bind at 1.
  destruct (readListings v w) as [[e | xs] w1] eqn:Hr;
    apply readListings_spec in Hr as (Hf & _ & Hxs); cbn [snd];
    [left; assumption |].
  rewrite (Hxs xs eq_refl) in *. clear Hxs.
  unfold bind, Date_now, Number. cbv zeta.
  destruct (ToNumber (get_prop req_body "price")) as [p |]; cbn [throw ret snd];
    [| left; rewrite file_tick; exact Hf].
  set (l := newListing req_body _ _ _).
  destruct (writeListings v _ (tick (tick w1))) as [[e | []] w2] eqn:Hw;
    apply writeListings_spec in Hw; cbn [snd].
  { left. rewrite Hw, !file_tick. exact Hf. }
  right. eexists. split; [exact Hw |].
  rewrite map_app, clean_map by (apply well_formed_clean; assumption).
  split.
  - apply t_created.
  - apply Forall_app. split; [exact Hwf |].
    constructor; [| constructor]. split; [apply clean_persist |].
    exists 0. split; [lia | reflexivity].
Qed.

Lemma get_listings_step (v : variant) (w : world) :
  well_formed (listings_of w) ->
  transition (listings_of w) (listings_of (snd (get_listings v w)))
  /\ well_formed (listings_of (snd (get_listings v w))).
Proof.
  intros Hwf. apply file_step; [assumption |]. left.
  unfold get_listings. rewrite file_guarded. unfold bind.
  destruct (readListings v w) as [[e | xs] w1] eqn:Hr;
    apply readListings_spec in Hr as (Hf & _); exact Hf.
Qed.

(** A contact does not touch the file. *)
Lemma post_contact_file (req_body : value) (w : world) :
  file (snd (post_contact req_body w)) = file w.
Proof.
  unfold post_contact. destruct (coercible req_body); [| reflexivity].
  rewrite file_guarded. unfold bind, template, send_mail, throw, ret.
  destruct (unprintable (get_prop req_body "name")); [reflexivity |].
  destruct (unprintable (get_prop req_body "email")); [reflexivity |].
  destruct (unprintable (get_prop req_body "message")); [reflexivity |].
  destruct (relay_ok w); reflexivity.
Qed.

Lemma post_contact_step (req_body : value) (w : world) :
  well_formed (listings_of w) ->
  transition (listings_of w) (listings_of (snd (post_contact req_body w)))
  /\ well_formed (listings_of (snd (post_contact req_body w))).
Proof.
  intros Hwf. apply file_step; [assumption |]. left.
  apply post_contact_file.
Qed.


(** Unless a record was deleted, every record is still at its place
    after a transition, as a later state of itself. *)
Lemma transition_keeps (xs ys : list Listing) :
  transition xs ys -> well_formed xs ->
  (length xs <= length ys)%nat ->
  forall i a, xs !! i = Some a -> exists b, ys !! i = Some b /\ keeps a b.
Proof.
  intros Ht Hwf Hlen i a Hi.
  destruct (well_formed_lookup xs i a Hwf Hi) as (_ & Hcount).
  destruct Ht as [xs | xs l | xs j l l' Hj Hk | xs j Hj].
  - exists a. split; [exact Hi | apply keeps_refl; exact Hcount].
  - exists a. split; [| apply keeps_refl; exact Hcount].
    apply lookup_app_l_Some. exact Hi.
  - destruct (Nat.eq_dec j i) as [-> | Hne].
    + exists l'. split.
      * apply list_lookup_insert_eq. eapply lookup_lt_Some; eassumption.
      * congruence.
    + exists a. split; [| apply keeps_refl; exact Hcount].
      rewrite list_lookup_insert_ne by assumption. exact Hi.
  - rewrite length_delete in Hlen by (apply lookup_lt_is_Some; exact Hj). lia.
Qed.


(** ** Start-up *)

(** The falsy values are [undefined], [null], [false], the zeros,
    [NaN] and the empty string. *)
Lemma falsy_values (v : value) :
  ToBoolean v = false <->
  v = JUndefined \/ v = JNull \/ v = JBool false
  \/ (exists s, v = JNum (S754_zero s)) \/ v = JNum S754_nan \/ v = JStr "".
Proof.
  split.
  - destruct v as [| | [] | [] | s | |]; cbn; intros H; try discriminate; eauto 10.
    destruct (String.eqb_spec s ""); [subst; eauto 10 | discriminate].
  - intros [-> | [-> | [-> | [[s ->] | [-> | ->]]]]]; reflexivity.
Qed.

(** With no file and a writable disk, start-up leaves the empty
    collection, which is well formed. *)
Lemma ensureListingsFileExists_creates (w : world) :
  file w = None -> disk_ok w = true ->
  listings_of (snd (ensureListingsFileExists w)) = []
  /\ file (snd (ensureListingsFileExists w)) = Some (Json [])
  /\ well_formed [].
Proof.
  intros Hf Hd.
  unfold ensureListingsFileExists, try_catch, access, writeFile, listings_of.
  rewrite Hf, Hd. cbn. repeat split. constructor.
Qed.


(** Every world the server can be in holds a well-formed collection. *)
Lemma reachable_well_formed (v : variant) (w : world) :
  reachable v w -> well_formed (listings_of w).
Proof.
  induction 1 as [w Hf | w req h _ IH Hroute].
  - unfold ensureListingsFileExists, try_catch, access, writeFile, listings_of.
    rewrite Hf. destruct (disk_ok w); cbn; [constructor |].
    rewrite Hf. constructor.
  - destruct req as [| req_body | rid | rid | rid | req_body];
      cbn [route] in Hroute.
    + injection Hroute as <-. apply get_listings_step. exact IH.
    + injection Hroute as <-. apply post_listings_step. exact IH.
    + injection Hroute as <-. apply post_like_step. exact IH.
    + injection Hroute as <-. apply post_buy_step. exact IH.
    + destruct v; [| discriminate]. injection Hroute as <-.
      apply delete_listing_step. exact IH.
    + injection Hroute as <-. apply post_contact_step. exact IH.
Qed.

End Run.

(* ================================================================== *)
(** * The claims of the specification *)
(* ================================================================== *)

Import Js Clock Store Server Spec Run.

(** ** Buy *)

(** C1. A buy on an id present in the collection: when the first
    record with that id is unsold and the file can be written, the
    answer is 200 [{success: true, sold: true}] and the file holds the
    collection with that record marked sold (and, in a collection the
    service wrote, nothing else changed); a second buy on the same
    id then answers 400 "Already sold" and leaves the world as it is.
    When the record is already sold the answer is 400 "Already sold"
    and the world, the file included, is left as it is: nothing is
    written. *)
Theorem buy_marks_sold_once (v : variant) (rid : string) (w : world)
    (xs : list Listing) (i : nat) (l : Listing) :
  file w = Some (Json xs) ->
  find rid xs = Some (i, l) ->
  (sold l = false -> disk_ok w = true ->
   let l1 := persist (set_sold true l) in
   let w1 := set_file (Some (Json (map persist (<[i := set_sold true l]> xs)))) w in
   post_buy v rid w =
     (json 200 (JObj [("success", JBool true); ("sold", JBool true)]), w1)
   /\ find rid (listings_of w1) = Some (i, l1)
   /\ sold l1 = true
   /\ (Forall clean xs -> listings_of w1 = <[i := set_sold true l]> xs)
   /\ post_buy v rid w1 = (json 400 (failure "Already sold"), w1))
  /\
  (sold l = true ->
   post_buy v rid w = (json 400 (failure "Already sold"), w)).
Proof.
  intros Hfile Hfind. split.
  - intros Hsold Hdisk l1 w1.
    assert (Hfind1 : find rid (listings_of w1) = Some (i, l1)).
    { unfold w1, listings_of. cbn. apply (find_update rid xs i l); [assumption |].
      apply find_Some in Hfind as (_ & Hid & _). exact Hid. }
    repeat apply conj.
    + rewrite (post_buy_found v rid w xs i l Hfile Hfind), Hsold, Hdisk.
      reflexivity.
    + exact Hfind1.
    + reflexivity.
    + intros Hclean. unfold w1, listings_of. cbn.
      apply clean_map, clean_insert; [exact Hclean |].
      apply clean_set_sold. apply find_Some in Hfind as (Hi & _).
      rewrite Forall_lookup in Hclean. exact (Hclean i l Hi).
    + rewrite (post_buy_found v rid w1 _ i l1 eq_refl Hfind1). reflexivity.
  - intros Hsold.
    rewrite (post_buy_found v rid w xs i l Hfile Hfind), Hsold. reflexivity.
Qed.

Lemma buy_marks_sold_once_witness :
  let w := world_with (Some (Json [lamp_record "16" 0 false; lamp_record "17" 2 false])) in
  let w1 := world_with (Some (Json [lamp_record "16" 0 false; lamp_record "17" 2 true])) in
  post_buy IndexJs "17" w =
    (json 200 (JObj [("success", JBool true); ("sold", JBool true)]), w1)
  /\ post_buy IndexJs "17" w1 = (json 400 (failure "Already sold"), w1).
Proof.
  intros w w1.
  pose proof (buy_marks_sold_once IndexJs "17" w _ 1%nat (lamp_record "17" 2 false)
                eq_refl eq_refl) as [Hfirst _].
  specialize (Hfirst eq_refl eq_refl) as (H1 & _ & _ & _ & H2).
  split; [exact H1 | exact H2].
Defined.

(** ** Like *)

(** C2. A like on an id present in a collection the service wrote,
    whose first record with that id holds the count [n < 2^53]:
    the answer is 200 with [likes = n + 1], the file holds the same
    collection with that one property of that one record replaced by
    [n + 1], and [n + 1] is the integer the stored double denotes.
    [N] likes in a row take the count from [n] to [n + N], as long as
    [n + N <= 2^53]. *)
Theorem like_adds_one (v : variant) (rid : string) (w : world)
    (xs : list Listing) (i : nat) (l : Listing) (n : Z) (N : nat) :
  file w = Some (Json xs) ->
  Forall clean xs ->
  find rid xs = Some (i, l) ->
  likes l = Num (of_Z n) ->
  0 <= n ->
  disk_ok w = true ->
  (n < 2 ^ 53 ->
   post_like v rid w =
     (mkResponse 200 (JObj [("success", JBool true); ("likes", JNum (of_Z (n + 1)))]),
      set_file (Some (Json (<[i := set_likes (Num (of_Z (n + 1))) l]> xs))) w)
   /\ to_Z (of_Z (n + 1)) = Some (n + 1))
  /\
  (n + Z.of_nat N <= 2 ^ 53 ->
   liked v rid N w =
     set_file (Some (Json (<[i := set_likes (Num (of_Z (n + Z.of_nat N))) l]> xs))) w).
Proof.
  intros Hfile Hclean Hfind Hlikes H0 Hdisk.
  assert (Hstep : forall (w0 : world) (ys : list Listing) (l0 : Listing) (m : Z),
    file w0 = Some (Json ys) -> Forall clean ys -> find rid ys = Some (i, l0) ->
    likes l0 = Num (of_Z m) -> 0 <= m < 2 ^ 53 -> disk_ok w0 = true ->
    post_like v rid w0 =
     (mkResponse 200 (JObj [("success", JBool true); ("likes", JNum (of_Z (m + 1)))]),
      set_file (Some (Json (<[i := set_likes (Num (of_Z (m + 1))) l0]> ys))) w0)).
  { intros w0 ys l0 m Hf Hc Hfd Hl Hm Hd.
    rewrite (post_like_found v rid w0 ys i l0 Hf Hfd), Hd. cbn zeta.
    assert (Hplus : plus_one (likes l0) = Num (of_Z (m + 1))).
    { rewrite Hl. cbn [plus_one]. f_equal.
      destruct (Z.eq_dec (m + 1) (2 ^ 53)) as [E | NE].
      - replace m with (2 ^ 53 - 1) by lia. rewrite NumberFacts.add_one_top.
        f_equal; lia.
      - apply NumberFacts.add_one_exact; lia. }
    rewrite Hplus.
    assert (Hc0 : clean l0).
    { apply find_Some in Hfd as (Hi & _). rewrite Forall_lookup in Hc.
      exact (Hc i l0 Hi). }
    rewrite clean_map
      by (apply clean_insert; [assumption | apply clean_set_likes; [assumption | lia]]).
    unfold json. cbn [to_json flat_map fst snd set_likes likes jnum_value].
    destruct (of_Z_is_json (m + 1) ltac:(lia)) as [-> _]. reflexivity. }
  split.
  - intros Hn. split.
    + apply Hstep; try assumption. lia.
    + apply NumberFacts.to_Z_of_Z. lia.
  - induction N as [| N IH]; intros HN.
    + cbn [liked Nat.iter Z.of_nat]. rewrite Z.add_0_r, <- Hlikes.
      destruct l; cbn. rewrite list_insert_id.
      * destruct w; cbn in *. subst. reflexivity.
      * apply find_Some in Hfind as (Hi & _). exact Hi.
    + unfold liked in *. rewrite Nat.iter_succ, IH by lia.
      pose proof Hfind as Hfind'. apply find_Some in Hfind' as (Hi & Hid & _).
      assert (Hcl : clean l) by (rewrite Forall_lookup in Hclean; exact (Hclean i l Hi)).
      set (lN := set_likes (Num (of_Z (n + Z.of_nat N))) l).
      rewrite (Hstep (set_file (Some (Json (<[i := lN]> xs))) w)
                 (<[i := lN]> xs) lN (n + Z.of_nat N)).
      * cbn [snd]. rewrite set_file_twice, list_insert_insert_eq.
        unfold lN. rewrite set_likes_twice.
        replace (n + Z.of_nat N + 1) with (n + Z.of_nat (S N)) by lia.
        reflexivity.
      * reflexivity.
      * apply clean_insert; [assumption | apply clean_set_likes; [assumption | lia]].
      * apply find_insert with (l := l); [assumption | exact Hid].
      * reflexivity.
      * lia.
      * exact Hdisk.
Qed.

Lemma like_adds_one_witness :
  let l := lamp_record "17" 2 false in
  let w := world_with (Some (Json [lamp_record "16" 0 false; l])) in
  post_like IndexJs "17" w =
    (mkResponse 200 (JObj [("success", JBool true); ("likes", JNum (of_Z 3))]),
     world_with (Some (Json [lamp_record "16" 0 false; lamp_record "17" 3 false])))
  /\ liked IndexJs "17" 5 w =
     world_with (Some (Json [lamp_record "16" 0 false; lamp_record "17" 7 false])).
Proof.
  intros l w.
  assert (Hclean : Forall clean [lamp_record "16" 0 false; l])
    by (repeat constructor).
  pose proof (like_adds_one IndexJs "17" w _ 1%nat l 2 5
                eq_refl Hclean eq_refl eq_refl ltac:(lia) eq_refl) as [H1 H5].
  split.
  - exact (proj1 (H1 ltac:(lia))).
  - exact (H5 ltac:(lia)).
Defined.

(** C2, as written: a record whose count is [2^53] is liked, the
    answer is 200 and the count is still [2^53]. *)
Lemma like_at_2_53_adds_nothing :
  let w := world_with (Some (Json [lamp_record "17" (2 ^ 53) false])) in
  post_like IndexJs "17" w =
    (mkResponse 200 (JObj [("success", JBool true); ("likes", JNum (of_Z (2 ^ 53)))]), w)
  /\ ~ like_increments_by_one IndexJs "17" w.
Proof.
  split; [vm_compute; reflexivity |].
  intros H.
  destruct (H [lamp_record "17" (2 ^ 53) false] 0%nat
              (lamp_record "17" (2 ^ 53) false) (of_Z (2 ^ 53)) (2 ^ 53)
              eq_refl eq_refl eq_refl eq_refl) as (l' & x' & Hl & Hx & Hz).
  vm_compute in Hl. injection Hl as <-.
  vm_compute in Hx. injection Hx as <-.
  vm_compute in Hz. discriminate Hz.
Qed.

(** ** Create *)

(** C3. A create request whose [title], [price], [description] and
    [contact] are all present and truthy and whose [price] converts to
    a number, on a readable and writable file: the answer is 201 with
    a record [r] that has [likes = 0], [sold = false], a non-empty
    [id], [imageUrl = ""] when the request has no [imageUrl], and a
    [createdAt] that is the ISO rendering of a clock reading [t] not
    earlier than the time of the request; the file then holds the old
    collection followed by exactly [r]. *)
Theorem create_returns_listing (v : variant) (req_body : value) (w : world)
    (xs : list Listing) (p : number) :
  valid req_body ->
  ToNumber (get_prop req_body "price") = Some p ->
  file w = Some (Json xs) ->
  disk_ok w = true ->
  exists (r : Listing) (t : Z) (w' : world),
    post_listings v req_body w = (mkResponse 201 (encode r), w')
    /\ file w' = Some (Json (map persist xs ++ [r]))
    /\ (Forall clean xs -> file w' = Some (Json (xs ++ [r])))
    /\ likes r = Num (of_Z 0)
    /\ sold r = false
    /\ id r <> ""
    /\ (get_prop req_body "imageUrl" = JUndefined -> imageUrl r = JStr "")
    /\ createdAt r = toISOString t
    /\ clock w <= t.
Proof.
  intros Hvalid Hnum Hfile Hdisk.
  set (w2 := tick (tick w)).
  set (l := newListing req_body (clock (tick w)) p (clock w2)).
  exists (persist l), (clock w2), (set_file (Some (Json (map persist (xs ++ [l])))) w2).
  assert (Hbody : to_json (encode l) = encode (persist l)).
  { destruct Hvalid as (Ht & _ & Hd & Hc).
    apply to_json_encode; cbn [l newListing title description contact imageUrl];
      try (apply truthy_defined; assumption).
    destruct (ToBoolean (get_prop req_body "imageUrl")) eqn:E;
      [apply truthy_defined; assumption | discriminate]. }
  repeat apply conj.
  - rewrite (post_listings_valid v req_body w xs p Hvalid Hfile Hnum), Hdisk.
    fold w2. fold l. unfold json. rewrite Hbody. reflexivity.
  - cbn. rewrite map_app. reflexivity.
  - intros Hclean. cbn. rewrite map_app, clean_map by assumption. reflexivity.
  - reflexivity.
  - reflexivity.
  - apply toString_nonempty.
  - cbn. intros ->. reflexivity.
  - reflexivity.
  - unfold w2. etransitivity; [apply clock_tick |]. apply clock_tick.
Qed.

Lemma create_returns_listing_witness :
  exists (r : Listing) (t : Z) (w' : world),
    post_listings IndexJs lamp (world_with (Some (Json []))) = (mkResponse 201 (encode r), w')
    /\ file w' = Some (Json (map persist [] ++ [r]))
    /\ (Forall clean [] -> file w' = Some (Json ([] ++ [r])))
    /\ likes r = Num (of_Z 0)
    /\ sold r = false
    /\ id r <> ""
    /\ (get_prop lamp "imageUrl" = JUndefined -> imageUrl r = JStr "")
    /\ createdAt r = toISOString t
    /\ clock (world_with (Some (Json []))) <= t.
Proof.
  apply (create_returns_listing IndexJs lamp (world_with (Some (Json []))) []
           (of_Z 20)).
  - repeat split.
  - reflexivity.
  - reflexivity.
  - reflexivity.
Defined.

(** C3, as written: a price that is an object with an own [toString]
    property is truthy, [Number(price)] throws on it, and the answer
    is 500 with nothing appended. *)
Lemma create_with_unprintable_price_fails :
  let w := world_with (Some (Json [])) in
  valid odd_priced
  /\ post_listings IndexJs odd_priced w =
       (json 500 (failure "Failed to create listing"),
        set_console ["Create listing error:"] (tick w))
  /\ listings_of (snd (post_listings IndexJs odd_priced w)) = []
  /\ ~ create_succeeds IndexJs odd_priced w.
Proof.
  intros w. split; [repeat split |]. split; [reflexivity |].
  split; [reflexivity |].
  intros H. specialize (H ltac:(repeat split)). vm_compute in H. discriminate H.
Qed.




(** C10. A create request whose [price] is a non-empty string that is
    not a numeric literal, the other three required properties being
    truthy: the check passes, [Number(price)] is [NaN], the record
    built has [price = NaN], and the answer is 201; what the file and
    the response hold for that record is [price: null], the JSON of
    [NaN]. *)
Theorem create_accepts_non_numeric_price (v : variant) (req_body : value)
    (w : world) (xs : list Listing) (s : string) :
  get_prop req_body "price" = JStr s ->
  s <> "" ->
  StringToNumber s = S754_nan ->
  ToBoolean (get_prop req_body "title") = true ->
  ToBoolean (get_prop req_body "description") = true ->
  ToBoolean (get_prop req_body "contact") = true ->
  file w = Some (Json xs) ->
  disk_ok w = true ->
  exists (now created : Z) (w' : world),
    let l := newListing req_body now S754_nan created in
    valid req_body
    /\ ToNumber (get_prop req_body "price") = Some S754_nan
    /\ price l = Num S754_nan
    /\ post_listings v req_body w = (mkResponse 201 (encode (persist l)), w')
    /\ file w' = Some (Json (map persist xs ++ [persist l]))
    /\ price (persist l) = Null
    /\ get_prop (encode (persist l)) "price" = JNull.
Proof.
  intros Hprice Hs Hnan Ht Hd Hc Hfile Hdisk.
  assert (Hvalid : valid req_body).
  { repeat split; try assumption. rewrite Hprice. cbn.
    destruct (String.eqb_spec s ""); [congruence | reflexivity]. }
  assert (Hnum : ToNumber (get_prop req_body "price") = Some S754_nan).
  { rewrite Hprice. unfold ToNumber. cbn [unprintable number_value].
    rewrite Hnan. reflexivity. }
  set (w2 := tick (tick w)).
  exists (clock (tick w)), (clock w2),
    (set_file (Some (Json (map persist
       (xs ++ [newListing req_body (clock (tick w)) S754_nan (clock w2)])))) w2).
  cbn zeta. set (l := newListing req_body (clock (tick w)) S754_nan (clock w2)).
  assert (Hbody : to_json (encode l) = encode (persist l)).
  { apply to_json_encode; cbn [l newListing title description contact imageUrl];
      try (apply truthy_defined; assumption).
    destruct (ToBoolean (get_prop req_body "imageUrl")) eqn:E;
      [apply truthy_defined; assumption | discriminate]. }
  split; [exact Hvalid |]. repeat apply conj.
  - exact Hnum.
  - reflexivity.
  - rewrite (post_listings_valid v req_body w xs S754_nan Hvalid Hfile Hnum), Hdisk.
    fold w2. fold l. unfold json. rewrite Hbody. reflexivity.
  - cbn. rewrite map_app. reflexivity.
  - reflexivity.
  - reflexivity.
Qed.

Lemma create_accepts_non_numeric_price_witness :
  exists (now created : Z) (w' : world),
    let l := newListing abc_priced now S754_nan created in
    valid abc_priced
    /\ ToNumber (get_prop abc_priced "price") = Some S754_nan
    /\ price l = Num S754_nan
    /\ post_listings IndexJs abc_priced (world_with (Some (Json [])))
       = (mkResponse 201 (encode (persist l)), w')
    /\ file w' = Some (Json (map persist [] ++ [persist l]))
    /\ price (persist l) = Null
    /\ get_prop (encode (persist l)) "price" = JNull.
Proof.
  apply (create_accepts_non_numeric_price IndexJs abc_priced
           (world_with (Some (Json []))) [] "abc");
    first [reflexivity | discriminate].
Defined.

(** C10, as written: the price the file holds after the create is
    [null], not [NaN]. *)
Lemma persisted_price_is_null_not_NaN :
  ~ persisted_price_is_Number IndexJs abc_priced (world_with (Some (Json []))).
Proof.
  intros (r & x & Hlast & Hnum & Hprice).
  vm_compute in Hlast. injection Hlast as <-.
  vm_compute in Hprice. discriminate Hprice.
Qed.

(** ** Delete *)

(** C5. A delete on an id present in a collection the service wrote,
    with a writable file: the answer is 200 with [removedId] the id,
    the file holds the collection without the first record carrying
    that id, which is one record shorter and keeps every other record
    in its order; and when no other record carries that id, a second
    delete of it answers 404 and changes nothing. *)
Theorem delete_removes_first (rid : string) (w : world)
    (xs : list Listing) (i : nat) (l : Listing) :
  file w = Some (Json xs) ->
  Forall clean xs ->
  find rid xs = Some (i, l) ->
  disk_ok w = true ->
  let w1 := set_file (Some (Json (delete i xs))) w in
  delete_listing rid w =
    (mkResponse 200 (JObj [("success", JBool true); ("removedId", JStr rid)]), w1)
  /\ S (length (delete i xs)) = length xs
  /\ delete i xs = take i xs ++ drop (S i) xs
  /\ (forall j y, xs !! j = Some y -> (j < i)%nat -> id y <> rid)
  /\ ((forall j y, xs !! j = Some y -> id y = rid -> j = i) ->
      delete_listing rid w1 = (json 404 (failure "Not found"), w1)).
Proof.
  intros Hfile Hclean Hfind Hdisk w1.
  pose proof Hfind as Hf. apply find_Some in Hf as (Hi & Hid & Hfirst).
  repeat apply conj.
  - rewrite (delete_listing_found rid w xs i l Hfile Hfind), Hdisk, Hid.
    rewrite clean_map by (apply Forall_delete; assumption). reflexivity.
  - rewrite length_delete by (exists l; exact Hi).
    apply lookup_lt_Some in Hi. lia.
  - apply delete_take_drop.
  - exact Hfirst.
  - intros Huniq.
    apply (delete_listing_not_found rid w1 (delete i xs) eq_refl).
    apply find_delete_unique. exact Huniq.
Qed.

Lemma delete_removes_first_witness :
  let a := lamp_record "16" 0 false in
  let b := lamp_record "17" 2 true in
  let c := lamp_record "18" 1 false in
  let w := world_with (Some (Json [a; b; c])) in
  let w1 := world_with (Some (Json [a; c])) in
  delete_listing "17" w =
    (mkResponse 200 (JObj [("success", JBool true); ("removedId", JStr "17")]), w1)
  /\ delete_listing "17" w1 = (json 404 (failure "Not found"), w1).
Proof.
  intros a b c w w1.
  assert (Hclean : Forall clean [a; b; c]) by (repeat constructor).
  pose proof (delete_removes_first "17" w [a; b; c] 1%nat b
                eq_refl Hclean eq_refl eq_refl) as (H1 & _ & _ & _ & H2).
  split; [exact H1 |]. apply H2.
  intros [| [| [| j]]] y Hj Hy; cbn in Hj; try discriminate;
    injection Hj as <-; first [reflexivity | discriminate Hy].
Defined.

(** C5, as written: two creates within one millisecond share an id,
    and the second delete of that id then answers 200. *)
Lemma second_delete_of_shared_id_succeeds :
  let w := snd (post_listings IndexJs lamp
                  (snd (post_listings IndexJs lamp (world_with (Some (Json [])))))) in
  is_Some (find "1700000000000" (listings_of w))
  /\ ~ second_delete_not_found "1700000000000" w.
Proof.
  split.
  - vm_compute. eexists. reflexivity.
  - unfold second_delete_not_found. vm_compute. discriminate.
Qed.

(** ** Not found *)

(** C6. A like, a buy or a delete whose id is on no record of the
    collection is answered 404 "Not found", and the world, the file
    included, is left as it is: nothing is written. *)
Theorem unknown_id_not_found (v : variant) (rid : string) (w : world)
    (xs : list Listing) :
  file w = Some (Json xs) ->
  find rid xs = None ->
  post_like v rid w = (json 404 (failure "Not found"), w)
  /\ post_buy v rid w = (json 404 (failure "Not found"), w)
  /\ delete_listing rid w = (json 404 (failure "Not found"), w).
Proof.
  intros Hfile Hfind. repeat apply conj.
  - apply (post_like_not_found v rid w xs); assumption.
  - apply (post_buy_not_found v rid w xs); assumption.
  - apply (delete_listing_not_found rid w xs); assumption.
Qed.

Lemma unknown_id_not_found_witness :
  let w := world_with (Some (Json [lamp_record "16" 0 false])) in
  post_like IndexJs "99" w = (json 404 (failure "Not found"), w)
  /\ post_buy IndexJs "99" w = (json 404 (failure "Not found"), w)
  /\ delete_listing "99" w = (json 404 (failure "Not found"), w).
Proof.
  intros w.
  exact (unknown_id_not_found IndexJs "99" w [lamp_record "16" 0 false]
           eq_refl eq_refl).
Defined.

(** ** Reading a missing or invalid document *)

(** C8. With the document missing or not JSON: in [part_000] the read
    throws and [GET /listings] answers 500 "Failed to read listings";
    in [src/index.js] the read catches the failure, logs it and
    returns the empty array, and [GET /listings] answers 200 with
    [[]]. *)
Theorem read_failure (w : world) :
  unreadable w ->
  ((exists e, readListings Part000 w = (inl e, w))
   /\ get_listings Part000 w =
        (json 500 (failure "Failed to read listings"),
         set_console (console w ++ ["Read listings error:"]) w))
  /\
  (readListings IndexJs w =
     (inr [], set_console (console w ++ ["Error reading listings:"]) w)
   /\ get_listings IndexJs w =
        (mkResponse 200 (JArr []),
         set_console (console w ++ ["Error reading listings:"]) w)).
Proof.
  intros [H | H]; unfold get_listings, guarded, bind, readListings, try_catch,
    bind, readFile, console_error; rewrite H; cbn; repeat split; eauto.
Qed.

Lemma read_failure_witness :
  let w := world_with None in
  ((exists e, readListings Part000 w = (inl e, w))
   /\ get_listings Part000 w =
        (json 500 (failure "Failed to read listings"),
         set_console (console w ++ ["Read listings error:"]) w))
  /\
  (readListings IndexJs w =
     (inr [], set_console (console w ++ ["Error reading listings:"]) w)
   /\ get_listings IndexJs w =
        (mkResponse 200 (JArr []),
         set_console (console w ++ ["Error reading listings:"]) w)).
Proof.
  intros w. apply (read_failure w). left. reflexivity.
Defined.

(** C8, as written: in [src/index.js], with the document missing, the
    read does not fail and [GET /listings] does not answer 500. *)
Lemma index_js_swallows_read_failure :
  unreadable (world_with None)
  /\ ~ read_failure_surfaces IndexJs (world_with None).
Proof.
  split; [left; reflexivity |].
  intros [(e & w' & Hread) _]. vm_compute in Hread. discriminate Hread.
Qed.

(** ** Response bodies *)




(** ** Invariants *)

(** C7. Whatever the request, on a collection the service wrote and
    whose counts are counts: the collection after the request is the
    collection before, or that collection with one record appended,
    or with one record replaced by a later state of itself (same id,
    still sold if it was sold, at least as many likes), or with one
    record removed; it is again such a collection; and, unless a
    record was removed, every record is still at its place, still
    sold if it was sold and with at least as many likes. *)
Theorem operations_keep_invariants (v : variant) (req : request) (h : handler)
    (w : world) :
  route v req = Some h ->
  well_formed (listings_of w) ->
  let after := listings_of (snd (h w)) in
  transition (listings_of w) after
  /\ well_formed after
  /\ ((length (listings_of w) <= length after)%nat ->
      forall i a, listings_of w !! i = Some a ->
      exists b, after !! i = Some b
                /\ (sold a = true -> sold b = true)
                /\ js_leb (jnum_number (likes a)) (jnum_number (likes b)) = true).
Proof.
  intros Hroute Hwf after.
  assert (Hstep : transition (listings_of w) after /\ well_formed after).
  { unfold after.
    destruct req as [| req_body | rid | rid | rid | req_body];
      cbn [route] in Hroute.
    - injection Hroute as <-. apply get_listings_step. exact Hwf.
    - injection Hroute as <-. apply post_listings_step. exact Hwf.
    - injection Hroute as <-. apply post_like_step. exact Hwf.
    - injection Hroute as <-. apply post_buy_step. exact Hwf.
    - destruct v; [| discriminate]. injection Hroute as <-.
      apply delete_listing_step. exact Hwf.
    - injection Hroute as <-. apply post_contact_step. exact Hwf. }
  destruct Hstep as [Ht Hwf']. split; [exact Ht |]. split; [exact Hwf' |].
  intros Hlen i a Hi.
  destruct (transition_keeps _ _ Ht Hwf Hlen i a Hi) as (b & Hb & _ & Hs & Hl).
  exists b. auto.
Qed.

Lemma operations_keep_invariants_witness :
  let w := world_with (Some (Json [lamp_record "16" 0 true; lamp_record "17" 2 false])) in
  let after := listings_of (snd (post_like IndexJs "17" w)) in
  transition (listings_of w) after
  /\ well_formed after
  /\ ((length (listings_of w) <= length after)%nat ->
      forall i a, listings_of w !! i = Some a ->
      exists b, after !! i = Some b
                /\ (sold a = true -> sold b = true)
                /\ js_leb (jnum_number (likes a)) (jnum_number (likes b)) = true).
Proof.
  intros w.
  apply (operations_keep_invariants IndexJs (POST_like "17") _ w eq_refl).
  repeat constructor; first [exists 0; split; [lia | reflexivity]
                            | exists 2; split; [lia | reflexivity]].
Defined.

(* ================================================================== *)
(** * Further properties of the handlers *)
(* ================================================================== *)

Module Compose.
Import Js Clock Store Server Spec Run.

(** ** Ids *)

(** Two times print as the same decimal string only when they are the
    same time. *)
Lemma toString_inj (a b : Z) : toString a = toString b -> a = b.
Proof.
  assert (H : forall z, NilZero.int_of_string (toString z) = Some (Z.to_int z)).
  { intros z. unfold toString. apply NilZero.isi.
    - destruct z; cbn; try discriminate.
      intros E. injection E as E. revert E.
      apply DecimalPos.Unsigned.to_uint_nonnil.
    - destruct z; cbn; try discriminate.
      intros E. injection E as E. revert E.
      apply DecimalPos.Unsigned.to_uint_nonnil. }
  intros E. apply (f_equal NilZero.int_of_string) in E. rewrite !H in E.
  injection E as E. apply DecimalZ.to_int_inj. exact E.
Qed.

(** ** Looking records up after a change *)

Lemma find_cons (rid : string) (x : Listing) (xs : list Listing) :
  find rid (x :: xs) =
    if decide (id x = rid) then Some (0%nat, x)
    else prod_map S (fun y => y) <$> find rid xs.
Proof. reflexivity. Qed.

(** Serialising the records does not change which one an id finds. *)
Lemma find_map_persist (rid : string) (xs : list Listing) :
  find rid (map persist xs) = prod_map (fun j => j) persist <$> find rid xs.
Proof.
  induction xs as [| x xs IH]; [reflexivity |].
  cbn [map]. rewrite !find_cons. change (id (persist x)) with (id x).
  destruct (decide (id x = rid)); [reflexivity |].
  rewrite IH. destruct (find rid xs) as [[j y] |]; reflexivity.
Qed.

(** Replacing a record by one with the same id does not change what
    another id finds. *)
Lemma find_insert_other (rid : string) (xs : list Listing) (i : nat)
    (l l' : Listing) :
  xs !! i = Some l -> id l' = id l -> id l <> rid ->
  find rid (<[i := l']> xs) = find rid xs.
Proof.
  revert i. induction xs as [| x xs IH]; intros i Hi Hid Hne; [discriminate |].
  destruct i as [| i]; cbn in Hi.
  - injection Hi as ->. change (<[0%nat := l']> (l :: xs)) with (l' :: xs).
    rewrite !find_cons.
    destruct (decide (id l' = rid)); [congruence |].
    destruct (decide (id l = rid)); [congruence | reflexivity].
  - change (<[S i := l']> (x :: xs)) with (x :: <[i := l']> xs).
    rewrite !find_cons.
    destruct (decide (id x = rid)); [reflexivity |].
    rewrite (IH i Hi Hid Hne). reflexivity.
Qed.

(** Removing a record does not change the record another id finds. *)
Lemma find_delete_other (rid : string) (xs : list Listing) (i : nat) (l : Listing) :
  xs !! i = Some l -> id l <> rid ->
  snd <$> find rid (delete i xs) = snd <$> find rid xs.
Proof.
  revert i. induction xs as [| x xs IH]; intros i Hi Hne; [discriminate |].
  destruct i as [| i]; cbn in Hi.
  - injection Hi as ->. change (delete 0%nat (l :: xs)) with xs.
    rewrite find_cons.
    destruct (decide (id l = rid)); [congruence |].
    destruct (find rid xs) as [[j y] |]; reflexivity.
  - change (delete (S i) (x :: xs)) with (x :: delete i xs).
    rewrite !find_cons.
    destruct (decide (id x = rid)); [reflexivity |].
    pose proof (IH i Hi Hne) as E.
    destruct (find rid (delete i xs)) as [[j y] |];
      destruct (find rid xs) as [[j' y'] |]; cbn in *; congruence.
Qed.


(** ** The handlers on a file the service wrote *)

Lemma clean_lookup (xs : list Listing) (i : nat) (l : Listing) :
  Forall clean xs -> xs !! i = Some l -> clean l.
Proof. intros H Hi. rewrite Forall_lookup in H. exact (H i l Hi). Qed.

Lemma plus_one_exact (n : Z) :
  0 <= n < 2 ^ 53 -> plus_one (Num (of_Z n)) = Num (of_Z (n + 1)).
Proof.
  intros Hn. cbn [plus_one]. f_equal.
  destruct (Z.eq_dec (n + 1) (2 ^ 53)) as [E | NE].
  - replace n with (2 ^ 53 - 1) by lia. rewrite NumberFacts.add_one_top.
    f_equal; lia.
  - apply NumberFacts.add_one_exact; lia.
Qed.

Lemma post_like_clean (v : variant) (rid : string) (w : world)
    (xs : list Listing) (i : nat) (l : Listing) (n : Z) :
  file w = Some (Json xs) -> Forall clean xs -> find rid xs = Some (i, l) ->
  likes l = Num (of_Z n) -> 0 <= n < 2 ^ 53 -> disk_ok w = true ->
  post_like v rid w =
    (mkResponse 200 (JObj [("success", JBool true); ("likes", JNum (of_Z (n + 1)))]),
     set_file (Some (Json (<[i := set_likes (Num (of_Z (n + 1))) l]> xs))) w).
Proof.
  intros Hf Hc Hfd Hl Hn Hd.
  rewrite (post_like_found v rid w xs i l Hf Hfd), Hd. cbn zeta.
  rewrite Hl, plus_one_exact by assumption.
  pose proof Hfd as Hfd'. apply find_Some in Hfd' as (Hi & _).
  rewrite clean_map
    by (apply clean_insert;
        [assumption
        | apply clean_set_likes; [exact (clean_lookup xs i l Hc Hi) | lia]]).
  unfold json. cbn [to_json flat_map fst snd set_likes likes jnum_value].
  destruct (of_Z_is_json (n + 1) ltac:(lia)) as [-> _]. reflexivity.
Qed.

Lemma post_buy_clean (v : variant) (rid : string) (w : world)
    (xs : list Listing) (i : nat) (l : Listing) :
  file w = Some (Json xs) -> Forall clean xs -> find rid xs = Some (i, l) ->
  sold l = false -> disk_ok w = true ->
  post_buy v rid w =
    (mkResponse 200 (JObj [("success", JBool true); ("sold", JBool true)]),
     set_file (Some (Json (<[i := set_sold true l]> xs))) w).
Proof.
  intros Hf Hc Hfd Hs Hd.
  rewrite (post_buy_found v rid w xs i l Hf Hfd), Hs, Hd.
  pose proof Hfd as Hfd'. apply find_Some in Hfd' as (Hi & _).
  rewrite clean_map
    by (apply clean_insert;
        [assumption | apply clean_set_sold; exact (clean_lookup xs i l Hc Hi)]).
  reflexivity.
Qed.

Lemma delete_listing_clean (rid : string) (w : world)
    (xs : list Listing) (i : nat) (l : Listing) :
  file w = Some (Json xs) -> Forall clean xs -> find rid xs = Some (i, l) ->
  disk_ok w = true ->
  delete_listing rid w =
    (mkResponse 200 (JObj [("success", JBool true); ("removedId", JStr rid)]),
     set_file (Some (Json (delete i xs))) w).
Proof.
  intros Hf Hc Hfd Hd.
  rewrite (delete_listing_found rid w xs i l Hf Hfd), Hd.
  apply find_Some in Hfd as (_ & -> & _).
  rewrite clean_map by (apply Forall_delete; assumption). reflexivity.
Qed.

Lemma newListing_defined (req_body : value) (now created : Z) (p : number) :
  valid req_body ->
  to_json (encode (newListing req_body now p created))
  = encode (persist (newListing req_body now p created)).
Proof.
  intros (Ht & _ & Hd & Hc).
  apply to_json_encode; cbn [newListing title description contact imageUrl];
    try (apply truthy_defined; assumption).
  destruct (ToBoolean (get_prop req_body "imageUrl")) eqn:E;
    [apply truthy_defined; assumption | discriminate].
Qed.

Lemma post_listings_clean (v : variant) (req_body : value) (w : world)
    (xs : list Listing) (p : number) :
  valid req_body -> ToNumber (get_prop req_body "price") = Some p ->
  file w = Some (Json xs) -> Forall clean xs -> disk_ok w = true ->
  post_listings v req_body w =
    (mkResponse 201 (encode (created req_body p w)),
     set_file (Some (Json (xs ++ [created req_body p w]))) (tick (tick w))).
Proof.
  intros Hv Hp Hf Hc Hd.
  rewrite (post_listings_valid v req_body w xs p Hv Hf Hp), Hd. cbn zeta.
  unfold json. rewrite newListing_defined by assumption.
  rewrite map_app, clean_map by assumption. reflexivity.
Qed.


Lemma clean_map_persist (xs : list Listing) : Forall clean (map persist xs).
Proof.
  induction xs as [| x xs IH]; cbn [map]; constructor;
    [apply clean_persist | exact IH].
Qed.


(** ** What a record looks like in a body *)

Lemma element_encode (l : Listing) :
  element (to_json (encode l)) = to_json (encode l).
Proof. reflexivity. Qed.

Lemma body_id (l : Listing) : get_prop (to_json (encode l)) "id" = JStr (id l).
Proof. reflexivity. Qed.

Lemma body_sold (l : Listing) :
  get_prop (to_json (encode l)) "sold" = JBool (sold l).
Proof.
  unfold encode. cbn [to_json flat_map fst snd get_prop].
  rewrite !lookup_property by reflexivity. reflexivity.
Qed.

Lemma body_likes (l : Listing) :
  get_prop (to_json (encode l)) "likes" = jnum_value (json_jnum (likes l)).
Proof.
  unfold encode. cbn [to_json flat_map fst snd get_prop].
  rewrite !lookup_property by reflexivity.
  rewrite jnum_value_json, property_defined by apply jnum_value_defined.
  reflexivity.
Qed.

Lemma list_body (xs : list Listing) :
  to_json (JArr (map encode xs)) = JArr (map (fun l => to_json (encode l)) xs).
Proof. cbn [to_json]. rewrite map_map. reflexivity. Qed.


(** ** Create, from what the read returned *)

Lemma tick_set_console (c : list string) (w : world) :
  tick (set_console c w) = set_console c (tick w).
Proof. unfold tick. cbn. destruct (ticks w); reflexivity. Qed.

Lemma readListings_index_unreadable (w : world) :
  unreadable w ->
  readListings IndexJs w =
    (inr [], set_console (console w ++ ["Error reading listings:"]) w).
Proof.
  intros [H | H]; unfold readListings, try_catch, bind, readFile; rewrite H;
    reflexivity.
Qed.

Lemma readListings_part000_unreadable (w : world) :
  unreadable w -> exists e, readListings Part000 w = (inl e, w).
Proof.
  intros [H | H]; unfold readListings, bind, readFile; rewrite H; cbn; eauto.
Qed.

Lemma post_listings_after_read (v : variant) (req_body : value) (w w0 : world)
    (xs : list Listing) (p : number) :
  valid req_body -> readListings v w = (inr xs, w0) ->
  ToNumber (get_prop req_body "price") = Some p -> disk_ok w0 = true ->
  let l := newListing req_body (clock (tick w0)) p (clock (tick (tick w0))) in
  post_listings v req_body w =
    (json 201 (encode l),
     set_file (Some (Json (map persist (xs ++ [l])))) (tick (tick w0))).
Proof.
  intros (Ht & Hp & Hd & Hc) Hr Hnum Hdisk l. unfold post_listings.
  rewrite (truthy_coercible _ _ Ht), Ht, Hp, Hd, Hc. cbn [negb orb].
  unfold guarded, bind. rewrite Hr.
  unfold Date_now, Number. rewrite Hnum. unfold ret at 1. fold l.
  rewrite writeListings_ok by (rewrite !disk_ok_tick; assumption).
  reflexivity.
Qed.


(** ** The new record in the collection *)

Lemma clean_created (req_body : value) (p : number) (w : world) :
  clean (created req_body p w).
Proof. apply clean_persist. Qed.

Lemma clean_app_created (xs : list Listing) (req_body : value) (p : number)
    (w : world) :
  Forall clean xs -> Forall clean (xs ++ [created req_body p w]).
Proof.
  intros H. apply Forall_app. split; [exact H |].
  constructor; [apply clean_created | constructor].
Qed.

(** With its id on no earlier record, the new record is the one its id
    finds, at the end. *)
Lemma find_created (xs : list Listing) (r : Listing) :
  find (id r) xs = None -> find (id r) (xs ++ [r]) = Some (length xs, r).
Proof.
  intros H. unfold find in *. rewrite list_find_app_r by exact H.
  change (list_find (fun l => id l = id r) [r])
    with (find (id r) [r]).
  rewrite find_cons. destruct (decide (id r = id r)); [| congruence].
  reflexivity.
Qed.

Lemma delete_last (xs : list Listing) (r : Listing) :
  delete (length xs) (xs ++ [r]) = xs.
Proof.
  induction xs as [| x xs IH]; [reflexivity |].
  cbn [length app]. change (delete (S (length xs)) (x :: (xs ++ [r])))
    with (x :: delete (length xs) (xs ++ [r])).
  rewrite IH. reflexivity.
Qed.

(** A record found in a clean collection is found, unchanged, in the
    serialised collection. *)
Lemma find_persist_clean (rid : string) (xs : list Listing) :
  Forall clean xs -> find rid (map persist xs) = find rid xs.
Proof.
  intros Hc. rewrite clean_map by exact Hc. reflexivity.
Qed.


(** ** Counting records *)

Lemma length_same_file (w w' : world) :
  file w' = file w -> length (listings_of w') = length (listings_of w).
Proof. intros H. rewrite (listings_of_file w w' H). reflexivity. Qed.

Lemma length_written (w' : world) (ys : list Listing) :
  file w' = Some (Json (map persist ys)) ->
  length (listings_of w') = length ys.
Proof. intros H. unfold listings_of. rewrite H. apply length_map. Qed.

(** ** The ISO rendering of a time *)

Lemma length_append (a b : string) :
  String.length (a +:+ b) = (String.length a + String.length b)%nat.
Proof.
  induction a as [| c a IH]; [reflexivity |].
  change (String c a +:+ b) with (String c (a +:+ b)).
  cbn [String.length]. rewrite IH. reflexivity.
Qed.

Lemma length_fixed (k : nat) (n : Z) : String.length (fixed k n) = k.
Proof.
  revert n. induction k as [| k IH]; intros n; cbn [fixed]; [reflexivity |].
  rewrite length_append, IH. cbn [String.length]. lia.
Qed.

(** From 1970 to the end of the year 9999 the year has four digits. *)
Lemma year_in_range (t : Z) :
  0 <= t < 253402300800000 ->
  let '(y, m, d) := civil_from_days (t / ms_per_day) in 1970 <= y <= 9999.
Proof.
  intros Ht. unfold civil_from_days, ms_per_day.
  set (days := t / 86400000).
  assert (Hd : 0 <= days <= 2932896)
    by (unfold days; Z.to_euclidean_division_equations; lia).
  clearbody days. clear Ht t.
  set (z := days + 719468).
  set (era := z / 146097).
  set (doe := z - era * 146097).
  set (yoe := (doe - doe / 1460 + doe / 36524 - doe / 146096) / 365).
  set (doy := doe - (365 * yoe + yoe / 4 - yoe / 100)).
  set (mp := (5 * doy + 2) / 153).
  destruct (mp <? 10) eqn:E1.
  - apply Z.ltb_lt in E1. destruct (mp + 3 <=? 2) eqn:E2.
    + apply Z.leb_le in E2.
      unfold mp, doy, yoe, doe, era, z in *. Z.to_euclidean_division_equations. lia.
    + unfold mp, doy, yoe, doe, era, z in *. Z.to_euclidean_division_equations. lia.
  - apply Z.ltb_ge in E1. destruct (mp - 9 <=? 2) eqn:E2.
    + unfold mp, doy, yoe, doe, era, z in *. Z.to_euclidean_division_equations. lia.
    + apply Z.leb_gt in E2.
      unfold mp, doy, yoe, doe, era, z in *. Z.to_euclidean_division_equations. lia.
Qed.

Lemma length_toISOString (t : Z) :
  0 <= t < 253402300800000 -> String.length (toISOString t) = 24%nat.
Proof.
  intros Ht. pose proof (year_in_range t Ht) as Hy. unfold toISOString.
  destruct (civil_from_days (t / ms_per_day)) as [[y m] d].
  replace ((0 <=? y) && (y <=? 9999)) with true
    by (symmetry; apply andb_true_iff; split; apply Z.leb_le; lia).
  rewrite !length_append, !length_fixed. reflexivity.
Qed.

End Compose.

Import Compose.

(** ** Start-up and the two helpers *)

(** X1. [ensureListingsFileExists] never throws.  A file that exists is
    left as it is, whatever it holds; a missing file is created as the
    empty array when the disk can be written; when it cannot, the file
    is still missing and the failure is logged. *)
Theorem ensure_creates_only_when_missing (w : world) :
  fst (ensureListingsFileExists w) = inr tt
  /\ (forall c, file w = Some c -> snd (ensureListingsFileExists w) = w)
  /\ (file w = None -> disk_ok w = true ->
      snd (ensureListingsFileExists w) = set_file (Some (Json [])) w)
  /\ (file w = None -> disk_ok w = false ->
      snd (ensureListingsFileExists w) =
        set_console (console w ++ ["Failed to initialize listings file:"]) w).
Proof.
  unfold ensureListingsFileExists, try_catch, access, writeFile, console_error.
  destruct (file w) as [c |] eqn:Hf; destruct (disk_ok w) eqn:Hd; cbn;
    repeat split; intros; try discriminate; reflexivity.
Qed.

Lemma ensure_creates_only_when_missing_witness :
  let w := world_with None in
  fst (ensureListingsFileExists w) = inr tt
  /\ snd (ensureListingsFileExists w) = set_file (Some (Json [])) w.
Proof.
  intros w.
  destruct (ensure_creates_only_when_missing w) as (H1 & _ & H3 & _).
  split; [exact H1 | exact (H3 eq_refl eq_refl)].
Defined.


(** X2. What [writeListings] wrote, [readListings] reads back (the
    records as JSON keeps them), in either version of the server; and
    writing back what was read leaves the world as it is. *)
Theorem write_then_read (v v' : variant) (xs : list Listing) (w : world) :
  disk_ok w = true ->
  let w1 := snd (writeListings v xs w) in
  fst (writeListings v xs w) = inr tt
  /\ readListings v' w1 = (inr (map persist xs), w1)
  /\ writeListings v' (map persist xs) w1 = (inr tt, w1).
Proof.
  intros Hd w1. unfold w1. rewrite (writeListings_ok v xs w Hd). cbn [fst snd].
  split; [reflexivity |]. split.
  - apply readListings_ok. reflexivity.
  - rewrite writeListings_ok by exact Hd.
    rewrite clean_map by apply clean_map_persist.
    reflexivity.
Qed.

Lemma write_then_read_witness :
  let xs := [lamp_record "16" 0 false;
             set_likes (Num (S754_infinity false)) (lamp_record "17" 0 true)] in
  let w := world_with None in
  let w1 := snd (writeListings IndexJs xs w) in
  fst (writeListings IndexJs xs w) = inr tt
  /\ readListings Part000 w1 = (inr (map persist xs), w1)
  /\ writeListings Part000 (map persist xs) w1 = (inr tt, w1).
Proof.
  intros xs w. exact (write_then_read IndexJs Part000 xs w eq_refl).
Defined.

(** ** List *)

(** X3. On a readable file, [GET /listings] answers 200 in both
    versions of the server and changes nothing, not even the log.  The
    body is an array with one element per record, in the order of the
    file; each element is the JSON of its record and carries the
    record's id, sold flag and likes. *)
Theorem list_returns_collection (v : variant) (w : world) (xs : list Listing) :
  file w = Some (Json xs) ->
  exists vs,
    get_listings v w = (mkResponse 200 (JArr vs), w)
    /\ length vs = length xs
    /\ forall i l, xs !! i = Some l ->
         vs !! i = Some (to_json (encode l))
         /\ get_prop (to_json (encode l)) "id" = JStr (id l)
         /\ get_prop (to_json (encode l)) "sold" = JBool (sold l)
         /\ get_prop (to_json (encode l)) "likes" = jnum_value (json_jnum (likes l)).
Proof.
  intros Hf. exists (map (fun l => to_json (encode l)) xs). repeat apply conj.
  - unfold get_listings, guarded, bind. rewrite (readListings_ok v w xs Hf).
    unfold ret, json. rewrite list_body. reflexivity.
  - apply length_map.
  - intros i l Hi. repeat apply conj.
    + change (map ?f ?l) with (f <$> l). rewrite list_lookup_fmap, Hi. reflexivity.
    + apply body_id.
    + apply body_sold.
    + apply body_likes.
Qed.

Lemma list_returns_collection_witness :
  let xs := [lamp_record "16" 0 false; lamp_record "17" 2 true] in
  let w := world_with (Some (Json xs)) in
  exists vs,
    get_listings Part000 w = (mkResponse 200 (JArr vs), w)
    /\ length vs = length xs
    /\ forall i l, xs !! i = Some l ->
         vs !! i = Some (to_json (encode l))
         /\ get_prop (to_json (encode l)) "id" = JStr (id l)
         /\ get_prop (to_json (encode l)) "sold" = JBool (sold l)
         /\ get_prop (to_json (encode l)) "likes" = jnum_value (json_jnum (likes l)).
Proof.
  intros xs w. exact (list_returns_collection Part000 w xs eq_refl).
Defined.

(** X4. In [src/index.js], [GET /listings] answers 200 in every world:
    [readListings] has caught whatever the read threw, so the 500 of
    the handler cannot be reached.  The body is the collection of the
    world, empty when the file is missing or is not JSON, and the file
    is left as it is. *)
Theorem index_js_list_always_200 (w : world) :
  fst (get_listings IndexJs w) =
    mkResponse 200 (JArr (map (fun l => to_json (encode l)) (listings_of w)))
  /\ file (snd (get_listings IndexJs w)) = file w
  /\ (unreadable w -> body (fst (get_listings IndexJs w)) = JArr []).
Proof.
  unfold get_listings, guarded, bind, readListings, try_catch, bind, readFile,
    console_error, listings_of, unreadable.
  destruct (file w) as [[| xs] |] eqn:Hf; cbn.
  - repeat split; try assumption.
  - unfold json. rewrite list_body. repeat split; try assumption.
    intros [H | H]; discriminate H.
  - repeat split; try assumption.
Qed.

Lemma index_js_list_always_200_witness :
  let w := world_with (Some Garbage) in
  status (fst (get_listings IndexJs w)) = 200
  /\ body (fst (get_listings IndexJs w)) = JArr [].
Proof.
  intros w.
  destruct (index_js_list_always_200 w) as (H1 & _ & H3).
  split; [rewrite H1; reflexivity | apply H3; right; reflexivity].
Defined.


(** ** When the write fails *)

(** X5. A like, a buy of an unsold record, or a delete whose write
    fails is answered 500 with the message of its route, never with a
    success.  [src/index.js] logs the failure twice, in
    [writeListings] and then in the handler; [part_000] logs it once,
    in the handler. *)
Theorem failed_write_is_500 (v : variant) (rid : string) (w : world)
    (xs : list Listing) (i : nat) (l : Listing) :
  file w = Some (Json xs) ->
  find rid xs = Some (i, l) ->
  disk_ok w = false ->
  let logged := match v with
                | IndexJs => ["Error writing listings:"]
                | Part000 => []
                end in
  (fst (post_like v rid w) = json 500 (failure "Failed to like listing")
   /\ console (snd (post_like v rid w))
      = console w ++ logged ++ ["Like listing error:"])
  /\ (sold l = false ->
      fst (post_buy v rid w) = json 500 (failure "Failed to mark as sold")
      /\ console (snd (post_buy v rid w))
         = console w ++ logged ++ ["Buy listing error:"])
  /\ (fst (delete_listing rid w) = json 500 (failure "Failed to delete listing")
      /\ console (snd (delete_listing rid w))
         = console w ++ ["Error writing listings:"; "Delete listing error:"]).
Proof.
  intros Hf Hfd Hd logged. repeat apply conj.
  - rewrite (post_like_found v rid w xs i l Hf Hfd), Hd. reflexivity.
  - rewrite (post_like_found v rid w xs i l Hf Hfd), Hd. reflexivity.
  - intros Hs. rewrite (post_buy_found v rid w xs i l Hf Hfd), Hs, Hd.
    split; reflexivity.
  - rewrite (delete_listing_found rid w xs i l Hf Hfd), Hd. reflexivity.
  - rewrite (delete_listing_found rid w xs i l Hf Hfd), Hd. reflexivity.
Qed.

Lemma failed_write_is_500_witness :
  let xs := [lamp_record "16" 0 false; lamp_record "17" 2 false] in
  let w := set_file (Some (Json xs))
             (mkWorld None false 1700000000000 [] true 0 []) in
  (fst (post_like IndexJs "17" w) = json 500 (failure "Failed to like listing")
   /\ console (snd (post_like IndexJs "17" w))
      = ["Error writing listings:"; "Like listing error:"])
  /\ (sold (lamp_record "17" 2 false) = false ->
      fst (post_buy IndexJs "17" w) = json 500 (failure "Failed to mark as sold")
      /\ console (snd (post_buy IndexJs "17" w))
         = ["Error writing listings:"; "Buy listing error:"])
  /\ (fst (delete_listing "17" w) = json 500 (failure "Failed to delete listing")
      /\ console (snd (delete_listing "17" w))
         = ["Error writing listings:"; "Delete listing error:"]).
Proof.
  intros xs w.
  exact (failed_write_is_500 IndexJs "17" w xs 1%nat (lamp_record "17" 2 false)
           eq_refl eq_refl eq_refl).
Defined.

(** X6. A create request that passes the check, on a readable file,
    fails in two ways, both answered 500 "Failed to create listing".
    [Number(price)] throws after the clock was read once, for the id:
    no write is attempted, so the file is as it was, and the handler
    logs one line.  Or the write fails, after the clock was read
    twice: [src/index.js] logs two lines, [part_000] one. *)
Theorem create_failures (v : variant) (req_body : value) (w : world)
    (xs : list Listing) :
  valid req_body ->
  file w = Some (Json xs) ->
  (ToNumber (get_prop req_body "price") = None ->
   fst (post_listings v req_body w) = json 500 (failure "Failed to create listing")
   /\ file (snd (post_listings v req_body w)) = Some (Json xs)
   /\ clock (snd (post_listings v req_body w)) = clock (tick w)
   /\ console (snd (post_listings v req_body w))
      = console w ++ ["Create listing error:"])
  /\ (forall p, ToNumber (get_prop req_body "price") = Some p ->
      disk_ok w = false ->
      fst (post_listings v req_body w) = json 500 (failure "Failed to create listing")
      /\ clock (snd (post_listings v req_body w)) = clock (tick (tick w))
      /\ console (snd (post_listings v req_body w))
         = console w ++ (match v with
                         | IndexJs => ["Error writing listings:"]
                         | Part000 => []
                         end) ++ ["Create listing error:"]).
Proof.
  intros Hv Hf. split.
  - intros Hp. rewrite (post_listings_throws v req_body w xs Hv Hf Hp).
    cbn [fst snd]. split; [reflexivity |].
    split; [cbn; rewrite file_tick; exact Hf |].
    split; [reflexivity |]. cbn. rewrite console_tick. reflexivity.
  - intros p Hp Hd.
    rewrite (post_listings_valid v req_body w xs p Hv Hf Hp), Hd.
    cbn [fst snd]. split; [reflexivity |]. split; reflexivity.
Qed.

Lemma create_failures_witness :
  let xs := [lamp_record "16" 0 false] in
  let w := world_with (Some (Json xs)) in
  fst (post_listings Part000 odd_priced w) = json 500 (failure "Failed to create listing")
  /\ file (snd (post_listings Part000 odd_priced w)) = Some (Json xs)
  /\ clock (snd (post_listings Part000 odd_priced w)) = clock (tick w)
  /\ console (snd (post_listings Part000 odd_priced w)) = ["Create listing error:"].
Proof.
  intros xs w.
  assert (Hv : valid odd_priced) by (repeat split).
  exact (proj1 (create_failures Part000 odd_priced w xs Hv eq_refl) eq_refl).
Defined.

(** ** When the file is missing or is not JSON *)

(** X7. With the document missing or not JSON, a like, a buy and a
    delete are answered 404 "Not found" in [src/index.js] (the read
    gave the empty array) and a like and a buy are answered 500 in
    [part_000]; the file is left as it was in every case. *)
Theorem unreadable_file_lookups (rid : string) (w : world) :
  unreadable w ->
  (fst (post_like IndexJs rid w) = json 404 (failure "Not found")
   /\ fst (post_buy IndexJs rid w) = json 404 (failure "Not found")
   /\ fst (delete_listing rid w) = json 404 (failure "Not found")
   /\ fst (post_like Part000 rid w) = json 500 (failure "Failed to like listing")
   /\ fst (post_buy Part000 rid w) = json 500 (failure "Failed to mark as sold"))
  /\ (file (snd (post_like IndexJs rid w)) = file w
      /\ file (snd (post_buy IndexJs rid w)) = file w
      /\ file (snd (delete_listing rid w)) = file w
      /\ file (snd (post_like Part000 rid w)) = file w
      /\ file (snd (post_buy Part000 rid w)) = file w).
Proof.
  intros [H | H];
    unfold post_like, post_buy, delete_listing, guarded, bind, readListings,
      try_catch, bind, readFile, console_error, JSON_parse, throw, ret;
    rewrite H; cbn; repeat split; assumption.
Qed.

Lemma unreadable_file_lookups_witness :
  let w := world_with (Some Garbage) in
  (fst (post_like IndexJs "17" w) = json 404 (failure "Not found")
   /\ fst (post_buy IndexJs "17" w) = json 404 (failure "Not found")
   /\ fst (delete_listing "17" w) = json 404 (failure "Not found")
   /\ fst (post_like Part000 "17" w) = json 500 (failure "Failed to like listing")
   /\ fst (post_buy Part000 "17" w) = json 500 (failure "Failed to mark as sold"))
  /\ (file (snd (post_like IndexJs "17" w)) = file w
      /\ file (snd (post_buy IndexJs "17" w)) = file w
      /\ file (snd (delete_listing "17" w)) = file w
      /\ file (snd (post_like Part000 "17" w)) = file w
      /\ file (snd (post_buy Part000 "17" w)) = file w).
Proof.
  intros w. apply (unreadable_file_lookups "17" w). right. reflexivity.
Defined.

(** X8. A create request that passes the check and whose price
    converts, with the document missing or not JSON and the disk
    writable: [src/index.js] answers 201 and replaces the document by
    the collection of the one new record, so whatever the file held
    is gone; [part_000] answers 500 and leaves the file as it was. *)
Theorem create_on_unreadable_file (req_body : value) (w : world) (p : number) :
  unreadable w ->
  valid req_body ->
  ToNumber (get_prop req_body "price") = Some p ->
  disk_ok w = true ->
  (fst (post_listings IndexJs req_body w) = mkResponse 201 (encode (created req_body p w))
   /\ file (snd (post_listings IndexJs req_body w)) = Some (Json [created req_body p w]))
  /\ (fst (post_listings Part000 req_body w) = json 500 (failure "Failed to create listing")
      /\ file (snd (post_listings Part000 req_body w)) = file w).
Proof.
  intros Hu Hv Hp Hdisk. split.
  - rewrite (post_listings_after_read IndexJs req_body w _ [] p Hv
               (readListings_index_unreadable w Hu) Hp Hdisk).
    cbn zeta. rewrite !tick_set_console. cbn [clock set_console app map].
    unfold json. rewrite newListing_defined by exact Hv. split; reflexivity.
  - destruct (readListings_part000_unreadable w Hu) as (e & Hr).
    destruct Hv as (Ht & Hpr & Hd & Hc).
    unfold post_listings.
    rewrite (truthy_coercible _ _ Ht), Ht, Hpr, Hd, Hc. cbn [negb orb].
    unfold guarded, bind. rewrite Hr. split; reflexivity.
Qed.

Lemma create_on_unreadable_file_witness :
  let w := world_with (Some Garbage) in
  (fst (post_listings IndexJs lamp w) = mkResponse 201 (encode (created lamp (of_Z 20) w))
   /\ file (snd (post_listings IndexJs lamp w)) = Some (Json [created lamp (of_Z 20) w]))
  /\ (fst (post_listings Part000 lamp w) = json 500 (failure "Failed to create listing")
      /\ file (snd (post_listings Part000 lamp w)) = file w).
Proof.
  intros w.
  assert (Hv : valid lamp) by (repeat split).
  exact (create_on_unreadable_file lamp w (of_Z 20) (or_intror eq_refl) Hv
           eq_refl eq_refl).
Defined.

(** ** Create, and the record it adds *)

(** X9. After a create that succeeds the last record of the file is the
    one sent back, and it carries the request: the id is the first
    clock reading in decimal, [title], [description] and [contact] are
    the request's values as JSON keeps them, [price] is the JSON of
    [Number(price)], [imageUrl] is the request's when truthy and the
    empty string otherwise, and [createdAt] is the ISO rendering of
    the second clock reading. *)
Theorem created_record_fields (v : variant) (req_body : value) (w : world)
    (xs : list Listing) (p : number) :
  valid req_body ->
  ToNumber (get_prop req_body "price") = Some p ->
  file w = Some (Json xs) ->
  disk_ok w = true ->
  exists r,
    fst (post_listings v req_body w) = mkResponse 201 (encode r)
    /\ last (listings_of (snd (post_listings v req_body w))) = Some r
    /\ length (listings_of (snd (post_listings v req_body w))) = S (length xs)
    /\ id r = toString (clock (tick w))
    /\ title r = to_json (get_prop req_body "title")
    /\ price r = json_jnum (Num p)
    /\ description r = to_json (get_prop req_body "description")
    /\ contact r = to_json (get_prop req_body "contact")
    /\ imageUrl r = (if ToBoolean (get_prop req_body "imageUrl")
                     then to_json (get_prop req_body "imageUrl") else JStr "")
    /\ createdAt r = toISOString (clock (tick (tick w))).
Proof.
  intros Hv Hp Hf Hd. exists (created req_body p w).
  rewrite (post_listings_valid v req_body w xs p Hv Hf Hp), Hd. cbn zeta.
  cbn [fst snd]. unfold listings_of. cbn [file set_file].
  rewrite map_app. cbn [map]. fold (created req_body p w).
  repeat apply conj; try reflexivity.
  - unfold json. rewrite newListing_defined by exact Hv. reflexivity.
  - apply last_snoc.
  - rewrite length_app, length_map. cbn. lia.
  - unfold created, persist. cbn [imageUrl newListing].
    destruct (ToBoolean (get_prop req_body "imageUrl")); reflexivity.
Qed.

Lemma created_record_fields_witness :
  let w := world_with (Some (Json [lamp_record "16" 0 false])) in
  exists r,
    fst (post_listings IndexJs abc_priced w) = mkResponse 201 (encode r)
    /\ last (listings_of (snd (post_listings IndexJs abc_priced w))) = Some r
    /\ length (listings_of (snd (post_listings IndexJs abc_priced w))) = 2%nat
    /\ id r = toString (clock (tick w))
    /\ title r = to_json (get_prop abc_priced "title")
    /\ price r = json_jnum (Num S754_nan)
    /\ description r = to_json (get_prop abc_priced "description")
    /\ contact r = to_json (get_prop abc_priced "contact")
    /\ imageUrl r = (if ToBoolean (get_prop abc_priced "imageUrl")
                     then to_json (get_prop abc_priced "imageUrl") else JStr "")
    /\ createdAt r = toISOString (clock (tick (tick w))).
Proof.
  intros w.
  assert (Hv : valid abc_priced) by (repeat split).
  exact (created_record_fields IndexJs abc_priced w _ S754_nan Hv
           eq_refl eq_refl eq_refl).
Defined.

(** X10. After a create that succeeds on a file the service wrote, when
    no earlier record carries the new id, that id finds the new
    record, at the end of the collection: a like on it answers
    [likes: 1], and a delete of it leaves in the file the collection
    there was before the create. *)
Theorem created_id_addresses_new_record (v : variant) (req_body : value)
    (w : world) (xs : list Listing) (p : number) :
  valid req_body ->
  ToNumber (get_prop req_body "price") = Some p ->
  file w = Some (Json xs) ->
  Forall clean xs ->
  disk_ok w = true ->
  find (toString (clock (tick w))) xs = None ->
  let r := created req_body p w in
  let w1 := snd (post_listings v req_body w) in
  find (id r) (listings_of w1) = Some (length xs, r)
  /\ post_like v (id r) w1 =
       (mkResponse 200 (JObj [("success", JBool true); ("likes", JNum (of_Z 1))]),
        set_file (Some (Json (xs ++ [set_likes (Num (of_Z 1)) r]))) w1)
  /\ delete_listing (id r) w1 =
       (mkResponse 200 (JObj [("success", JBool true); ("removedId", JStr (id r))]),
        set_file (Some (Json xs)) w1).
Proof.
  intros Hv Hp Hf Hc Hd Hfresh r w1.
  assert (Hw1 : w1 = set_file (Some (Json (xs ++ [r]))) (tick (tick w))).
  { unfold w1. rewrite (post_listings_clean v req_body w xs p Hv Hp Hf Hc Hd).
    reflexivity. }
  assert (Hfind : find (id r) (xs ++ [r]) = Some (length xs, r))
    by (apply find_created; exact Hfresh).
  assert (Hd1 : disk_ok w1 = true)
    by (rewrite Hw1; cbn; rewrite !disk_ok_tick; exact Hd).
  assert (Hf1 : file w1 = Some (Json (xs ++ [r]))) by (rewrite Hw1; reflexivity).
  assert (Hc1 : Forall clean (xs ++ [r])) by (apply clean_app_created; exact Hc).
  repeat apply conj.
  - unfold listings_of. rewrite Hf1. exact Hfind.
  - rewrite (post_like_clean v (id r) w1 (xs ++ [r]) (length xs) r 0
               Hf1 Hc1 Hfind eq_refl ltac:(lia) Hd1).
    rewrite insert_app_r_alt by lia. rewrite Nat.sub_diag. reflexivity.
  - rewrite (delete_listing_clean (id r) w1 (xs ++ [r]) (length xs) r
               Hf1 Hc1 Hfind Hd1).
    rewrite delete_last. reflexivity.
Qed.

Lemma created_id_addresses_new_record_witness :
  let xs := [lamp_record "16" 3 true] in
  let w := world_with (Some (Json xs)) in
  let r := created lamp (of_Z 20) w in
  let w1 := snd (post_listings IndexJs lamp w) in
  find (id r) (listings_of w1) = Some (length xs, r)
  /\ post_like IndexJs (id r) w1 =
       (mkResponse 200 (JObj [("success", JBool true); ("likes", JNum (of_Z 1))]),
        set_file (Some (Json (xs ++ [set_likes (Num (of_Z 1)) r]))) w1)
  /\ delete_listing (id r) w1 =
       (mkResponse 200 (JObj [("success", JBool true); ("removedId", JStr (id r))]),
        set_file (Some (Json xs)) w1).
Proof.
  intros xs w.
  assert (Hv : valid lamp) by (repeat split).
  assert (Hc : Forall clean xs) by (repeat constructor).
  exact (created_id_addresses_new_record IndexJs lamp w xs (of_Z 20) Hv
           eq_refl eq_refl Hc eq_refl eq_refl).
Defined.

(** X11. A create never changes which record an existing id finds:
    whatever id the new record gets, an id that found a record before
    finds the same record at the same place after, because the new
    record is appended and the lookup takes the first match. *)
Theorem create_never_shadows (v : variant) (req_body : value) (w : world)
    (xs : list Listing) (p : number) (rid : string) (i : nat) (l : Listing) :
  valid req_body ->
  ToNumber (get_prop req_body "price") = Some p ->
  file w = Some (Json xs) ->
  Forall clean xs ->
  disk_ok w = true ->
  find rid xs = Some (i, l) ->
  find rid (listings_of (snd (post_listings v req_body w))) = Some (i, l).
Proof.
  intros Hv Hp Hf Hc Hd Hfind.
  rewrite (post_listings_clean v req_body w xs p Hv Hp Hf Hc Hd).
  unfold listings_of. cbn [snd file set_file].
  unfold find in *. apply list_find_app_l. exact Hfind.
Qed.

Lemma create_never_shadows_witness :
  let old := lamp_record "1700000000000" 3 true in
  let w := world_with (Some (Json [old])) in
  find "1700000000000" (listings_of (snd (post_listings IndexJs lamp w)))
  = Some (0%nat, old).
Proof.
  intros old w.
  assert (Hv : valid lamp) by (repeat split).
  assert (Hc : Forall clean [old]) by (repeat constructor).
  exact (create_never_shadows IndexJs lamp w [old] (of_Z 20) "1700000000000"
           0%nat old Hv eq_refl eq_refl Hc eq_refl eq_refl).
Defined.

(** ** Other records *)

(** X12. A like or a buy on one id leaves every other id finding the
    record it found, at the same place; a delete leaves every other id
    finding the record it found. *)
Theorem other_ids_unaffected (v : variant) (rid rid' : string) (w : world)
    (xs : list Listing) (i : nat) (l : Listing) :
  file w = Some (Json xs) ->
  Forall clean xs ->
  find rid xs = Some (i, l) ->
  rid' <> rid ->
  disk_ok w = true ->
  find rid' (listings_of (snd (post_like v rid w))) = find rid' xs
  /\ find rid' (listings_of (snd (post_buy v rid w))) = find rid' xs
  /\ snd <$> find rid' (listings_of (snd (delete_listing rid w)))
     = snd <$> find rid' xs.
Proof.
  intros Hf Hc Hfind Hne Hd.
  pose proof Hfind as Hfind'. apply find_Some in Hfind' as (Hi & Hid & _).
  assert (Hne' : id l <> rid') by congruence.
  assert (Hkeep : forall l', id l' = id l ->
            find rid' (map persist (<[i := l']> xs)) = find rid' xs).
  { intros l' Hl'. rewrite find_map_persist.
    rewrite (find_insert_other rid' xs i l l' Hi Hl' Hne').
    destruct (find rid' xs) as [[j y] |] eqn:E; [| reflexivity].
    apply find_Some in E as (Hj & _). cbn.
    rewrite (clean_lookup xs j y Hc Hj). reflexivity. }
  repeat apply conj.
  - rewrite (post_like_found v rid w xs i l Hf Hfind), Hd.
    cbn [snd]. unfold listings_of. cbn [file set_file].
    apply Hkeep. reflexivity.
  - rewrite (post_buy_found v rid w xs i l Hf Hfind), Hd.
    destruct (sold l); cbn [snd].
    + unfold listings_of. rewrite Hf. reflexivity.
    + unfold listings_of. cbn [file set_file]. apply Hkeep. reflexivity.
  - rewrite (delete_listing_found rid w xs i l Hf Hfind), Hd.
    cbn [snd]. unfold listings_of. cbn [file set_file].
    rewrite clean_map by (apply Forall_delete; exact Hc).
    apply (find_delete_other rid' xs i l Hi Hne').
Qed.

Lemma other_ids_unaffected_witness :
  let a := lamp_record "16" 3 true in
  let b := lamp_record "17" 0 false in
  let c := lamp_record "18" 1 false in
  let w := world_with (Some (Json [a; b; c])) in
  find "18" (listings_of (snd (post_like IndexJs "17" w))) = Some (2%nat, c)
  /\ find "18" (listings_of (snd (post_buy IndexJs "17" w))) = Some (2%nat, c)
  /\ snd <$> find "18" (listings_of (snd (delete_listing "17" w))) = Some c.
Proof.
  intros a b c w.
  assert (Hc : Forall clean [a; b; c]) by (repeat constructor).
  assert (Hne : "18" <> "17") by discriminate.
  exact (other_ids_unaffected IndexJs "17" "18" w [a; b; c] 1%nat b
           eq_refl Hc eq_refl Hne eq_refl).
Defined.

(** ** Like and buy, in either order *)

(** X13. A like and a buy, on the same id or on two ids, can be done in
    either order: the answers are the same and so is the world left,
    the like adding one and the buy marking sold. *)
Theorem like_and_buy_commute (v : variant) (rid rid' : string) (w : world)
    (xs : list Listing) (i j : nat) (a b : Listing) (n : Z) :
  file w = Some (Json xs) ->
  Forall clean xs ->
  find rid xs = Some (i, a) ->
  find rid' xs = Some (j, b) ->
  likes a = Num (of_Z n) ->
  0 <= n < 2 ^ 53 ->
  sold b = false ->
  disk_ok w = true ->
  fst (post_like v rid (snd (post_buy v rid' w))) = fst (post_like v rid w)
  /\ fst (post_buy v rid' (snd (post_like v rid w))) = fst (post_buy v rid' w)
  /\ snd (post_like v rid (snd (post_buy v rid' w)))
     = snd (post_buy v rid' (snd (post_like v rid w))).
Proof.
  intros Hf Hc Hfa Hfb Hl Hn Hs Hd.
  pose proof Hfa as Ha. apply find_Some in Ha as (Hia & Hida & _).
  pose proof Hfb as Hb. apply find_Some in Hb as (Hjb & Hidb & _).
  set (a' := set_likes (Num (of_Z (n + 1))) a).
  set (b' := set_sold true b).
  rewrite (post_like_clean v rid w xs i a n Hf Hc Hfa Hl Hn Hd).
  rewrite (post_buy_clean v rid' w xs j b Hf Hc Hfb Hs Hd).
  cbn [fst snd]. fold a'. fold b'.
  assert (Hca : Forall clean (<[i := a']> xs)).
  { apply clean_insert; [exact Hc |].
    apply clean_set_likes; [exact (clean_lookup xs i a Hc Hia) | lia]. }
  assert (Hcb : Forall clean (<[j := b']> xs)).
  { apply clean_insert; [exact Hc |].
    apply clean_set_sold. exact (clean_lookup xs j b Hc Hjb). }
  destruct (decide (rid = rid')) as [E | NE].
  - (* the same id: the same record *)
    rewrite <- E in *. clear E.
    assert (Hsame : (i, a) = (j, b)) by congruence.
    injection Hsame as <- <-.
    rewrite (post_like_clean v rid (set_file (Some (Json (<[i := b']> xs))) w)
               (<[i := b']> xs) i b' n
               eq_refl Hcb (find_insert rid xs i a b' Hfa Hida) Hl Hn Hd).
    rewrite (post_buy_clean v rid (set_file (Some (Json (<[i := a']> xs))) w)
               (<[i := a']> xs) i a'
               eq_refl Hca (find_insert rid xs i a a' Hfa Hida) Hs Hd).
    cbn [fst snd]. rewrite !set_file_twice, !list_insert_insert_eq.
    repeat split.
  - (* two ids: two records *)
    assert (Hij : i <> j) by (intros ->; congruence).
    assert (Hfa' : find rid (<[j := b']> xs) = Some (i, a)).
    { rewrite (find_insert_other rid xs j b b' Hjb eq_refl); [exact Hfa | congruence]. }
    assert (Hfb' : find rid' (<[i := a']> xs) = Some (j, b)).
    { rewrite (find_insert_other rid' xs i a a' Hia eq_refl); [exact Hfb | congruence]. }
    rewrite (post_like_clean v rid (set_file (Some (Json (<[j := b']> xs))) w)
               (<[j := b']> xs) i a n
               eq_refl Hcb Hfa' Hl Hn Hd).
    rewrite (post_buy_clean v rid' (set_file (Some (Json (<[i := a']> xs))) w)
               (<[i := a']> xs) j b
               eq_refl Hca Hfb' Hs Hd).
    cbn [fst snd]. rewrite !set_file_twice. fold a'. fold b'.
    rewrite (list_insert_insert_ne xs i j a' b') by exact Hij.
    repeat split.
Qed.

Lemma like_and_buy_commute_witness :
  let a := lamp_record "16" 3 true in
  let b := lamp_record "17" 0 false in
  let w := world_with (Some (Json [a; b])) in
  fst (post_like IndexJs "16" (snd (post_buy IndexJs "17" w)))
    = fst (post_like IndexJs "16" w)
  /\ fst (post_buy IndexJs "17" (snd (post_like IndexJs "16" w)))
     = fst (post_buy IndexJs "17" w)
  /\ snd (post_like IndexJs "16" (snd (post_buy IndexJs "17" w)))
     = snd (post_buy IndexJs "17" (snd (post_like IndexJs "16" w))).
Proof.
  intros a b w.
  assert (Hc : Forall clean [a; b]) by (repeat constructor).
  exact (like_and_buy_commute IndexJs "16" "17" w [a; b] 0%nat 1%nat a b 3
           eq_refl Hc eq_refl eq_refl eq_refl ltac:(lia) eq_refl eq_refl).
Defined.

(** ** Ids *)

(** X14. Two creates that succeed send back the same id exactly when
    their first clock readings are the same millisecond: the id is the
    reading in decimal, and nothing else goes into it. *)
Theorem ids_equal_iff_same_millisecond (v v' : variant) (req_body req_body' : value)
    (w w' : world) (xs xs' : list Listing) (p p' : number) :
  valid req_body -> ToNumber (get_prop req_body "price") = Some p ->
  file w = Some (Json xs) -> disk_ok w = true ->
  valid req_body' -> ToNumber (get_prop req_body' "price") = Some p' ->
  file w' = Some (Json xs') -> disk_ok w' = true ->
  get_prop (body (fst (post_listings v req_body w))) "id"
    = get_prop (body (fst (post_listings v' req_body' w'))) "id"
  <-> clock (tick w) = clock (tick w').
Proof.
  intros Hv Hp Hf Hd Hv' Hp' Hf' Hd'.
  rewrite (post_listings_valid v req_body w xs p Hv Hf Hp), Hd.
  rewrite (post_listings_valid v' req_body' w' xs' p' Hv' Hf' Hp'), Hd'.
  cbn [fst body json]. rewrite !body_id. cbn [id newListing].
  split.
  - intros E. injection E as E. apply toString_inj. exact E.
  - intros ->. reflexivity.
Qed.

Lemma ids_equal_iff_same_millisecond_witness :
  let w := world_with (Some (Json [])) in
  let w' := snd (post_listings IndexJs lamp w) in
  get_prop (body (fst (post_listings IndexJs lamp w))) "id"
    = get_prop (body (fst (post_listings Part000 abc_priced w'))) "id"
  <-> clock (tick w) = clock (tick w').
Proof.
  intros w w'.
  assert (Hv : valid lamp) by (repeat split).
  assert (Hv' : valid abc_priced) by (repeat split).
  exact (ids_equal_iff_same_millisecond IndexJs Part000 lamp abc_priced w w'
           [] _ (of_Z 20) S754_nan Hv eq_refl eq_refl eq_refl
           Hv' eq_refl eq_refl eq_refl).
Defined.

(** ** The number of records *)

(** X15. Whatever the world: a list, a like, a buy and a contact leave
    the number of records as it is; a create leaves it as it is or
    adds one; a delete leaves it as it is or takes one away. *)
Theorem record_count (v : variant) (req : request) (h : handler) (w : world) :
  route v req = Some h ->
  let n := length (listings_of w) in
  let n' := length (listings_of (snd (h w))) in
  match req with
  | POST_listings _ => n' = n \/ n' = S n
  | DELETE_listing _ => n' = n \/ S n' = n
  | GET_listings | POST_like _ | POST_buy _ | POST_contact _ => n' = n
  end.
Proof.
  intros Hroute n n'. unfold n, n'. clear n n'.
  destruct req as [| req_body | rid | rid | rid | req_body];
    cbn [route] in Hroute.
  - (* list *)
    injection Hroute as <-. apply length_same_file.
    unfold get_listings. rewrite file_guarded. unfold bind.
    destruct (readListings v w) as [[e | xs] w1] eqn:Hr;
      apply readListings_spec in Hr as (Hf & _); exact Hf.
  - (* create *)
    injection Hroute as <-. unfold post_listings.
    destruct (coercible req_body); [| left; reflexivity].
    destruct (negb _ || negb _ || negb _ || negb _); [left; reflexivity |].
    match goal with |- context [guarded ?m ?a ?b w] =>
      rewrite (listings_of_file (snd (m w)) (snd (guarded m a b w))
                 (file_guarded m a b w)) end.
    unfold bind.
    destruct (readListings v w) as [[e | xs] w1] eqn:Hr;
      apply readListings_spec in Hr as (Hf & _ & Hxs); cbn [snd];
      [left; apply length_same_file; exact Hf |].
    rewrite (Hxs xs eq_refl) in *. clear Hxs.
    unfold bind, Date_now, Number. cbv zeta.
    destruct (ToNumber (get_prop req_body "price")) as [p |]; cbn [throw ret snd];
      [| left; apply length_same_file; rewrite file_tick; exact Hf].
    destruct (writeListings v _ (tick (tick w1))) as [[e | []] w2] eqn:Hw;
      apply writeListings_spec in Hw; cbn [snd].
    + left. apply length_same_file. rewrite Hw, !file_tick. exact Hf.
    + right. unfold ret. cbn [snd]. rewrite (length_written w2 _ Hw), length_app.
      cbn. lia.
  - (* like *)
    injection Hroute as <-. unfold post_like.
    match goal with |- context [guarded ?m ?a ?b w] =>
      rewrite (listings_of_file (snd (m w)) (snd (guarded m a b w))
                 (file_guarded m a b w)) end.
    unfold bind at 1.
    destruct (readListings v w) as [[e | xs] w1] eqn:Hr;
      apply readListings_spec in Hr as (Hf & _ & Hxs); cbn [snd];
      [apply length_same_file; exact Hf |].
    rewrite (Hxs xs eq_refl) in *. clear Hxs.
    destruct (find rid (listings_of w)) as [[i l] |]; cbn [snd];
      [| apply length_same_file; exact Hf].
    cbv zeta. unfold bind.
    destruct (writeListings v _ w1) as [[e | []] w2] eqn:Hw;
      apply writeListings_spec in Hw; cbn [snd].
    + apply length_same_file. congruence.
    + unfold ret. cbn [snd]. rewrite (length_written w2 _ Hw). apply length_insert.
  - (* buy *)
    injection Hroute as <-. unfold post_buy.
    match goal with |- context [guarded ?m ?a ?b w] =>
      rewrite (listings_of_file (snd (m w)) (snd (guarded m a b w))
                 (file_guarded m a b w)) end.
    unfold bind at 1.
    destruct (readListings v w) as [[e | xs] w1] eqn:Hr;
      apply readListings_spec in Hr as (Hf & _ & Hxs); cbn [snd];
      [apply length_same_file; exact Hf |].
    rewrite (Hxs xs eq_refl) in *. clear Hxs.
    destruct (find rid (listings_of w)) as [[i l] |]; cbn [snd];
      [| apply length_same_file; exact Hf].
    destruct (sold l); cbn [snd]; [apply length_same_file; exact Hf |].
    unfold bind.
    destruct (writeListings v _ w1) as [[e | []] w2] eqn:Hw;
      apply writeListings_spec in Hw; cbn [snd].
    + apply length_same_file. congruence.
    + unfold ret. cbn [snd]. rewrite (length_written w2 _ Hw). apply length_insert.
  - (* delete *)
    destruct v; [| discriminate]. injection Hroute as <-. unfold delete_listing.
    match goal with |- context [guarded ?m ?a ?b w] =>
      rewrite (listings_of_file (snd (m w)) (snd (guarded m a b w))
                 (file_guarded m a b w)) end.
    unfold bind.
    destruct (readListings IndexJs w) as [[e | xs] w1] eqn:Hr;
      apply readListings_spec in Hr as (Hf & _ & Hxs); cbn [snd];
      [left; apply length_same_file; exact Hf |].
    rewrite (Hxs xs eq_refl) in *. clear Hxs.
    destruct (find rid (listings_of w)) as [[i l] |] eqn:Hfind; cbn [snd];
      [| left; apply length_same_file; exact Hf].
    apply find_Some in Hfind as (Hi & _).
    unfold bind.
    destruct (writeListings IndexJs _ w1) as [[e | []] w2] eqn:Hw;
      apply writeListings_spec in Hw; cbn [snd].
    + left. apply length_same_file. congruence.
    + right. unfold ret. cbn [snd]. rewrite (length_written w2 _ Hw).
      rewrite length_delete by (exists l; exact Hi).
      apply lookup_lt_Some in Hi. lia.
  - (* contact *)
    injection Hroute as <-. apply length_same_file.
    apply post_contact_file.
Qed.

Lemma record_count_witness :
  let w := world_with (Some (Json [lamp_record "16" 0 false; lamp_record "17" 2 true])) in
  S (length (listings_of (snd (delete_listing "17" w)))) = length (listings_of w)
  /\ length (listings_of (snd (post_buy Part000 "16" w))) = length (listings_of w).
Proof.
  intros w. split.
  - destruct (record_count IndexJs (DELETE_listing "17") _ w eq_refl) as [H | H];
      [discriminate H | exact H].
  - exact (record_count Part000 (POST_buy "16") _ w eq_refl).
Defined.

(** ** The collection, from start-up on *)

(** X16. Started where there is no file, after
    [ensureListingsFileExists] and any sequence of requests, every
    record of the collection is one that reads back unchanged from its
    JSON, and its [likes] is an integer from 0 to 2^53. *)
Theorem reachable_records_are_sound (v : variant) (w : world) :
  reachable v w ->
  forall i l, listings_of w !! i = Some l -> clean l /\ counted l.
Proof.
  intros H i l Hi.
  exact (well_formed_lookup _ i l (reachable_well_formed v w H) Hi).
Qed.

Lemma reachable_records_are_sound_witness :
  let w := snd (post_like IndexJs "1700000000000"
             (snd (post_listings IndexJs lamp
                (snd (ensureListingsFileExists (world_with None)))))) in
  exists l, listings_of w !! 0%nat = Some l /\ clean l /\ counted l.
Proof.
  intros w.
  assert (H : reachable IndexJs w).
  { exact (reachable_step IndexJs _ (POST_like "1700000000000") _
             (reachable_step IndexJs _ (POST_listings lamp) _
                (reachable_start IndexJs (world_with None) eq_refl) eq_refl)
             eq_refl). }
  eexists. split; [vm_compute; reflexivity |].
  apply (reachable_records_are_sound IndexJs w H 0%nat). vm_compute. reflexivity.
Defined.

(** ** The time stamp *)

(** X17. After a create that succeeds, when the clock reading taken for
    [createdAt] lies between 1970 and the end of the year 9999, the
    [createdAt] sent back and stored has 24 characters: the form
    [YYYY-MM-DDTHH:mm:ss.sssZ] with a year of four digits. *)
Theorem created_at_has_24_characters (v : variant) (req_body : value) (w : world)
    (xs : list Listing) (p : number) :
  valid req_body ->
  ToNumber (get_prop req_body "price") = Some p ->
  file w = Some (Json xs) ->
  disk_ok w = true ->
  0 <= clock (tick (tick w)) < 253402300800000 ->
  exists r,
    fst (post_listings v req_body w) = mkResponse 201 (encode r)
    /\ last (listings_of (snd (post_listings v req_body w))) = Some r
    /\ String.length (createdAt r) = 24%nat.
Proof.
  intros Hv Hp Hf Hd Hc. exists (created req_body p w).
  rewrite (post_listings_valid v req_body w xs p Hv Hf Hp), Hd. cbn zeta.
  cbn [fst snd]. unfold listings_of. cbn [file set_file].
  rewrite map_app. cbn [map]. fold (created req_body p w).
  repeat apply conj.
  - unfold json. rewrite newListing_defined by exact Hv. reflexivity.
  - apply last_snoc.
  - unfold created, persist. cbn [createdAt newListing].
    apply length_toISOString. exact Hc.
Qed.

Lemma created_at_has_24_characters_witness :
  let w := world_with (Some (Json [lamp_record "16" 0 false])) in
  exists r,
    fst (post_listings Part000 lamp w) = mkResponse 201 (encode r)
    /\ last (listings_of (snd (post_listings Part000 lamp w))) = Some r
    /\ String.length (createdAt r) = 24%nat.
Proof.
  intros w.
  assert (Hv : valid lamp) by (repeat split).
  assert (Hc : 0 <= clock (tick (tick w)) < 253402300800000) by (cbn; lia).
  exact (created_at_has_24_characters Part000 lamp w _ (of_Z 20) Hv
           eq_refl eq_refl eq_refl Hc).
Defined.
